(** * SSD-TensorFlow inference driver ([infer.py]): batching and driver model

    The development embeds the two functions of [infer.py]:
    - [sample_generator], the lazy batch producer, as a finite trace of
      yields ending in a normal stop or in a raised exception;
    - [main], the command-line driver, as a function from the parsed
      arguments and the relevant part of the environment to a log of
      observable events and either a return code or an uncaught exception.

    Library calls (Python built-ins, [os.path], OpenCV, NumPy, TensorFlow)
    are modelled at the level the driver observes them: indices, slices,
    shapes, element types, raised exception classes. *)

From Stdlib Require Import ZArith List String Ascii Bool Lia DecimalString.
Import ListNotations.
Local Open Scope string_scope.
Local Open Scope list_scope.
Local Open Scope Z_scope.

(** ** Python exceptions and fallible results *)

Module Py.

Inductive exn_class :=
| ValueError
| IndexError
| KeyError
| TypeError
| AttributeError
| ZeroDivisionError
| FileNotFoundError
| PermissionError
| NotADirectoryError
| OSError
| EOFError
| UnpicklingError
| CvError.

(** A raised exception: its class and [str(e)]. *)
Record exn := Exn { exn_cls : exn_class; exn_str : string }.

Inductive result (A : Type) :=
| Ok (a : A)
| Raise (e : exn).
Arguments Ok {A} a.
Arguments Raise {A} e.

(** [range(start, stop, step)]: CPython computes the length first and then
    produces [start + i*step]; a zero step is a [ValueError]. *)
Definition get_len_of_range (lo hi step : Z) : Z :=
  if lo <? hi then (hi - lo - 1) / step + 1 else 0.

Definition range (start stop step : Z) : result (list Z) :=
  if step =? 0 then
    Raise (Exn ValueError "range() arg 3 must not be zero")
  else
    let n := if 0 <? step then get_len_of_range start stop step
             else get_len_of_range stop start (- step) in
    Ok (map (fun i => start + Z.of_nat i * step) (seq 0 (Z.to_nat n))).

Definition len {A} (l : list A) : Z := Z.of_nat (List.length l).

(** Slice bounds are clamped into [0, len]; negative bounds count from the
    end. *)
Definition clamp_index (n i : Z) : Z :=
  if i <? 0 then Z.max (i + n) 0 else Z.min i n.

Definition slice {A} (l : list A) (lo hi : Z) : list A :=
  let a := clamp_index (len l) lo in
  let b := clamp_index (len l) hi in
  firstn (Z.to_nat (b - a)) (skipn (Z.to_nat a) l).

(** [l[i]] for a sequence: negative indices count from the end, anything
    outside [-len, len) is an [IndexError]. *)
Definition index {A} (l : list A) (i : Z) : result A :=
  let j := if i <? 0 then i + len l else i in
  if (0 <=? j) && (j <? len l) then
    match nth_error l (Z.to_nat j) with
    | Some a => Ok a
    | None => Raise (Exn IndexError "list index out of range")
    end
  else Raise (Exn IndexError "list index out of range").

(** [str.rfind('/')]: index of the last slash, [-1] when there is none. *)
Fixpoint rfind_slash_from (i : nat) (p : string) (last : Z) : Z :=
  match p with
  | EmptyString => last
  | String c rest =>
      rfind_slash_from (S i) rest
        (if Ascii.eqb c "/"%char then Z.of_nat i else last)
  end.

Definition rfind_slash (p : string) : Z := rfind_slash_from 0 p (-1).

Fixpoint drop (n : nat) (p : string) : string :=
  match n, p with
  | O, _ => p
  | S m, EmptyString => EmptyString
  | S m, String _ rest => drop m rest
  end.

(** [os.path.basename] (posixpath): [i = p.rfind('/') + 1; return p[i:]]. *)
Definition basename (p : string) : string :=
  let i := rfind_slash p + 1 in
  drop (Z.to_nat i) p.

End Py.
Import Py.

(** ** Arrays as the driver sees them: shape, element type, provenance *)

Inductive dtype := UInt8 | Float32 | Float64 | Object.

Definition is_floating (d : dtype) : bool :=
  match d with Float32 | Float64 => true | _ => false end.

(** One decoded image. The pixel payload is abstracted to the file it was
    decoded from. *)
Record ndarray := NdArray {
  shape : list Z;
  elt : dtype;
  origin : string
}.

(** A stacked batch, the result of [np.array(images)]. *)
Record batch_array := BatchArray {
  bshape : list Z;
  belt : dtype;
  items : list ndarray
}.

(** [preset.image_size]: an object with attributes [w] and [h]. *)
Record Size := MkSize { w : Z; h : Z }.

Definition list_Z_eqb (a b : list Z) : bool :=
  if list_eq_dec Z.eq_dec a b then true else false.

Definition dtype_eqb (a b : dtype) : bool :=
  match a, b with
  | UInt8, UInt8 | Float32, Float32 | Float64, Float64 | Object, Object => true
  | _, _ => false
  end.

(** The trace of a generator: a finite sequence of yields closed by a
    normal stop or by the exception that escaped the body. *)
Inductive gen (A : Type) :=
| GStop
| GRaise (e : exn)
| GYield (a : A) (k : gen A).
Arguments GStop {A}.
Arguments GRaise {A} e.
Arguments GYield {A} a k.

Fixpoint yielded {A} (g : gen A) : list A :=
  match g with
  | GYield a k => a :: yielded k
  | _ => []
  end.

Fixpoint raised {A} (g : gen A) : option exn :=
  match g with
  | GStop => None
  | GRaise e => Some e
  | GYield _ k => raised k
  end.

Definition batch : Type := batch_array * list string.

Section Imaging.

(** What the file system holds: for a path that decodes as an image, its
    native (rows, columns); [None] for a path [cv2.imread] cannot decode. *)
Variable native_dims : string -> option (Z * Z).

(** [cv2.imread(path)] with the default colour flag: a 3-channel 8-bit
    array, or Python's [None] when the file cannot be read or decoded. *)
Definition cv2_imread (path : string) : option ndarray :=
  match native_dims path with
  | Some (rows, cols) => Some (NdArray [rows; cols; 3] UInt8 path)
  | None => None
  end.

(** [cv2.resize(src, (width, height))]: raises on a [None] source and on an
    empty target size; otherwise the result has [height] rows and [width]
    columns and keeps channels and element type. *)
Definition cv2_resize (src : option ndarray) (dsize : Z * Z) : result ndarray :=
  match src with
  | None => Raise (Exn CvError "(-215:Assertion failed) !ssize.empty() in function 'resize'")
  | Some a =>
      let (width, height) := dsize in
      if (0 <? width) && (0 <? height) then
        Ok (NdArray [height; width; nth 2 (shape a) 1] (elt a) (origin a))
      else Raise (Exn CvError "(-215:Assertion failed) !dsize.empty() in function 'resize'")
  end.

Definition astype (a : ndarray) (d : dtype) : ndarray :=
  NdArray (shape a) d (origin a).

(** [np.array(list_of_arrays)]: equal shapes stack along a new first axis
    and keep the common element type; the empty list is a float64 array of
    shape (0,); ragged input becomes a one-dimensional object array. *)
Definition np_array (l : list ndarray) : batch_array :=
  match l with
  | [] => BatchArray [0] Float64 []
  | a :: rest =>
      if forallb (fun b => list_Z_eqb (shape b) (shape a) && dtype_eqb (elt b) (elt a)) rest
      then BatchArray (len l :: shape a) (elt a) l
      else BatchArray [len l] Object l
  end.

(** ** [sample_generator] *)

(** The inner loop (lines 43-46): decode, resize, convert and record the
    name of each file of the slice, in order. *)
Fixpoint read_files (image_size : Z * Z) (files : list string)
    (images : list ndarray) (names : list string)
  : result (list ndarray * list string) :=
  match files with
  | [] => Ok (images, names)
  | image_file :: rest =>
      match cv2_resize (cv2_imread image_file) image_size with
      | Raise e => Raise e
      | Ok image =>
          read_files image_size rest
            (images ++ [astype image Float32])
            (names ++ [basename image_file])
      end
  end.

(** The outer loop (lines 39-47) over the offsets of [range]. *)
Fixpoint generate (samples : list string) (image_size : Z * Z)
    (batch_size : Z) (offsets : list Z) : gen batch :=
  match offsets with
  | [] => GStop
  | offset :: rest =>
      let files := slice samples offset (offset + batch_size) in
      match read_files image_size files [] [] with
      | Raise e => GRaise e
      | Ok (images, names) =>
          GYield (np_array images, names)
                 (generate samples image_size batch_size rest)
      end
  end.

Definition sample_generator (samples : list string) (image_size : Size)
    (batch_size : Z) : gen batch :=
  let image_size := (w image_size, h image_size) in
  match range 0 (len samples) batch_size with
  | Raise e => GRaise e
  | Ok offsets => generate samples image_size batch_size offsets
  end.

End Imaging.

(** ** The driver's environment *)

(** A value read back by [pickle.load], as far as the driver inspects it:
    a dictionary, or an object that cannot be subscripted by a string; a
    dictionary value with an [image_size], or one without that attribute.
    The text of the [TypeError] or [AttributeError] depends on the type of
    the object and is carried by it. *)
Inductive pyattrs :=
| PyPreset (image_size : Size)
| PyPlain (no_attribute : string).

Inductive pyobj :=
| PyDict (entries : list (string * pyattrs))
| PyOther (not_subscriptable : string).

(** One row of the network's output, opaque to the driver. *)
Inductive prediction := Prediction (id : nat).

Record World := MkWorld {
  (** [tf.train.get_checkpoint_state(name)]: [None], or the state's
      [all_model_checkpoint_paths]. *)
  checkpoint_state : string -> option (list string);
  (** [os.path.exists]. *)
  path_exists : string -> bool;
  (** [open(path, 'rb')]: a handle, or the [OSError] raised. *)
  open_rb : string -> result nat;
  (** [pickle.load(f)]. *)
  pickle_load : nat -> result pyobj;
  (** Decodable images and their native (rows, columns). *)
  native_dims : string -> option (Z * Z);
  (** [sess.run(net.result, feed_dict={net.image_input: x, ...})]. *)
  sess_run : batch_array -> list prediction;
  (** [os.makedirs(path)]: the [OSError] it raises, if any. *)
  makedirs_error : string -> option exn;
  (** [np.save(path, row)]: the [OSError] it raises, if any. *)
  save_error : string -> option exn;
  (** [int(math.ceil(a / b))] for [b <> 0]: the ceiling of the quotient
      rounded to a double. The rounding is left to the environment. *)
  true_div_ceil : Z -> Z -> Z
}.

(** The [argparse] namespace built by lines 54-71. *)
Module Args.
Record t := Make {
  files : list string;
  name : string;
  checkpoint : Z;
  training_data : string;
  output_dir : string;
  annotate : bool;
  dump_prediction : bool;
  batch_size : Z
}.
End Args.

Inductive pyval :=
| VStr (s : string)
| VInt (z : Z)
| VBool (b : bool)
| VList (l : list string).

(** Attribute lookup by name on the namespace: only the destinations the
    parser declares exist. *)
Definition getattr (args : Args.t) (attr : string) : result pyval :=
  if String.eqb attr "files" then Ok (VList (Args.files args))
  else if String.eqb attr "name" then Ok (VStr (Args.name args))
  else if String.eqb attr "checkpoint" then Ok (VInt (Args.checkpoint args))
  else if String.eqb attr "training_data" then Ok (VStr (Args.training_data args))
  else if String.eqb attr "output_dir" then Ok (VStr (Args.output_dir args))
  else if String.eqb attr "annotate" then Ok (VBool (Args.annotate args))
  else if String.eqb attr "dump_prediction" then Ok (VBool (Args.dump_prediction args))
  else if String.eqb attr "batch_size" then Ok (VInt (Args.batch_size args))
  else Raise (Exn AttributeError
                ("'Namespace' object has no attribute '" ++ attr ++ "'")%string).

Definition str_of_Z (z : Z) : string :=
  NilZero.string_of_int (Z.to_int z).

Definition str (v : pyval) : string :=
  match v with
  | VStr s => s
  | VInt z => str_of_Z z
  | VBool true => "True"
  | VBool false => "False"
  | VList l =>
      ("[" ++ String.concat ", " (map (fun s => "'" ++ s ++ "'") l) ++ "]")%string
  end.

(** [IOError] is an alias of [OSError]. *)
Definition IOError : exn_class := OSError.

(** [issubclass] on the modelled classes. *)
Definition subclass (c parent : exn_class) : bool :=
  match c, parent with
  | ValueError, ValueError | IndexError, IndexError | KeyError, KeyError
  | TypeError, TypeError | AttributeError, AttributeError
  | ZeroDivisionError, ZeroDivisionError
  | FileNotFoundError, FileNotFoundError | PermissionError, PermissionError
  | NotADirectoryError, NotADirectoryError
  | OSError, OSError | EOFError, EOFError
  | UnpicklingError, UnpicklingError | CvError, CvError => true
  | FileNotFoundError, OSError | PermissionError, OSError
  | NotADirectoryError, OSError => true
  | _, _ => false
  end.

(** Does [except (c1, c2, ...)] match the exception? *)
Definition except (classes : list exn_class) (e : exn) : bool :=
  existsb (subclass (exn_cls e)) classes.

(** ** Observable events and the driver monad *)

Inductive printable :=
| PStr (s : string)
| PInt (z : Z)
| PSize (s : Size).

Inductive event :=
| Print (items : list printable)
| MakeDirs (path : string)
| BuildModel (metagraph checkpoint : string)
| SessRun (x : batch_array)
| Save (path : string) (value : prediction).

(** A computation logs events and either produces a value or lets an
    exception escape. *)
Definition M (A : Type) : Type := list event * result A.

Definition ret {A} (a : A) : M A := ([], Ok a).

Definition bind {A B} (m : M A) (f : A -> M B) : M B :=
  match m with
  | (t, Ok a) => let (t', r) := f a in (t ++ t', r)
  | (t, Raise e) => (t, Raise e)
  end.

Definition lift {A} (r : result A) : M A := ([], r).
Definition raise {A} (e : exn) : M A := ([], Raise e).
Definition emit (ev : event) : M unit := ([ev], Ok tt).
Definition print (items : list printable) : M unit := emit (Print items).

Notation "x <- m ;; k" := (bind m (fun x => k))
  (at level 61, m at next level, right associativity).
Notation "m ;; k" := (bind m (fun _ => k))
  (at level 61, right associativity).

Definition rbind {A B} (r : result A) (f : A -> result B) : result B :=
  match r with Ok a => f a | Raise e => Raise e end.

(** ** [main] *)

(** [data['preset']]. *)
Fixpoint lookup (entries : list (string * pyattrs)) (key : string)
  : option pyattrs :=
  match entries with
  | [] => None
  | (k, v) :: rest => if String.eqb k key then Some v else lookup rest key
  end.

Definition getitem (data : pyobj) (key : string) : result pyattrs :=
  match data with
  | PyDict entries =>
      match lookup entries key with
      | Some v => Ok v
      | None => Raise (Exn KeyError ("'" ++ key ++ "'")%string)
      end
  | PyOther text => Raise (Exn TypeError text)
  end.

(** [preset.image_size]. *)
Definition get_image_size (preset : pyattrs) : result Size :=
  match preset with
  | PyPreset s => Ok s
  | PyPlain text => Raise (Exn AttributeError text)
  end.

(** The body of the [try] at lines 97-100. *)
Definition load_training_data (W : World) (args : Args.t) : result Size :=
  rbind (open_rb W (Args.training_data args)) (fun f =>
  rbind (pickle_load W f) (fun data =>
  rbind (getitem data "preset") (fun preset =>
  get_image_size preset))).

(** Line 144: [int(math.ceil(len(files)/args.batch_size))]. The division
    raises for a zero batch size; otherwise the value is the environment's
    rounded quotient (a list is shorter than 2^63, so the quotient by a
    non-zero integer fits a double and nothing else is raised). *)
Definition n_sample_batches (W : World) (files : list string)
    (batch_size : Z) : result Z :=
  if batch_size =? 0 then Raise (Exn ZeroDivisionError "division by zero")
  else Ok (true_div_ceil W (len files) batch_size).

(** A call that either completes or raises. *)
Definition attempt (failure : option exn) : M unit :=
  match failure with
  | Some e => raise e
  | None => ret tt
  end.

(** [os.makedirs(path)]: the call is logged, then it may raise. *)
Definition os_makedirs (W : World) (path : string) : M unit :=
  emit (MakeDirs path) ;; attempt (makedirs_error W path).

(** [np.save(path, value)]: the call is logged, then it may raise. *)
Definition np_save (W : World) (path : string) (value : prediction) : M unit :=
  emit (Save path value) ;; attempt (save_error W path).

(** Lines 157-159. *)
Fixpoint dump_loop (W : World) (args : Args.t) (names : list string)
    (boxes : list prediction) (indices : list Z) : M unit :=
  match indices with
  | [] => ret tt
  | i :: rest =>
      n <- lift (index names i) ;;
      b <- lift (index boxes i) ;;
      let fn := (Args.output_dir args ++ "/" ++ n ++ ".npy")%string in
      np_save W fn b ;;
      dump_loop W args names boxes rest
  end.

(** Lines 156-159: the dump of one batch. *)
Definition dump_step (W : World) (args : Args.t) (names : list string)
    (boxes : list prediction) : M unit :=
  if Args.annotate args && Args.dump_prediction args then
    indices <- lift (range 0 (len names) 1) ;;
    dump_loop W args names boxes indices
  else ret tt.

(** Lines 147-159: the consumer loop over the generator. *)
Fixpoint process (W : World) (args : Args.t) (generator : gen batch) : M unit :=
  match generator with
  | GStop => ret tt
  | GRaise e => raise e
  | GYield (x, names) k =>
      emit (SessRun x) ;;
      let boxes := sess_run W x in
      dump_step W args names boxes ;;
      process W args k
  end.

(** Lines 124-130: print the parameters. *)
Definition print_parameters (args : Args.t)
    (checkpoint_file metagraph_file : string) (image_size : Size)
    (files : list string) : M unit :=
  print [PStr "[i] Project name:      "; PStr (Args.name args)] ;;
  print [PStr "[i] Network checkpoint:"; PStr checkpoint_file] ;;
  print [PStr "[i] Metagraph file:    "; PStr metagraph_file] ;;
  print [PStr "[i] Training data:     "; PStr (Args.training_data args)] ;;
  print [PStr "[i] Image size:        "; PSize image_size] ;;
  print [PStr "[i] Number of files:   "; PInt (len files)] ;;
  print [PStr "[i] Batch size:        "; PInt (Args.batch_size args)].

(** Lines 135-159: create the network and process the images. *)
Definition run_network (W : World) (args : Args.t)
    (checkpoint_file metagraph_file : string) (image_size : Size)
    (files : list string) : M unit :=
  print [PStr "[i] Creating the model..."] ;;
  emit (BuildModel metagraph_file checkpoint_file) ;;
  let generator :=
    sample_generator (native_dims W) files image_size (Args.batch_size args) in
  _ <- lift (n_sample_batches W files (Args.batch_size args)) ;;
  process W args generator.

(** Lines 121-162: report the parameters, run the network, finish. *)
Definition report_and_run (W : World) (args : Args.t)
    (checkpoint_file metagraph_file : string) (image_size : Size)
    (files : list string) : M Z :=
  print_parameters args checkpoint_file metagraph_file image_size files ;;
  run_network W args checkpoint_file metagraph_file image_size files ;;
  print [PStr "[i] All done."] ;;
  ret 0.

(** Lines 109-119: the list of files to analyse. *)
Definition resolve_files (W : World) (args : Args.t) : list string :=
  let files := [] in
  if Args.annotate args then
    match Args.files args with
    | [] => files
    | _ => filter (fun x => path_exists W x) (Args.files args)
    end
  else files.

Definition main (W : World) (args : Args.t) : M Z :=
  match checkpoint_state W (Args.name args) with
  | None =>
      print [PStr ("[!] No network state found in " ++ Args.name args)%string] ;;
      ret 1
  | Some all_model_checkpoint_paths =>
  match index all_model_checkpoint_paths (Args.checkpoint args) with
  | Raise e =>
      if except [IndexError] e then
        v <- lift (getattr args "checkpoint_file") ;;
        print [PStr ("[!] Cannot find checkpoint " ++ str v)%string] ;;
        ret 1
      else raise e
  | Ok checkpoint_file =>
  let metagraph_file := (checkpoint_file ++ ".meta")%string in
  if negb (path_exists W metagraph_file) then
    print [PStr ("[!] Cannot find metagraph " ++ metagraph_file)%string] ;;
    ret 1
  else
  match load_training_data W args with
  | Raise e =>
      if except [FileNotFoundError; IOError; KeyError] e then
        print [PStr "[!] Unable to load training data:"; PStr (exn_str e)] ;;
        ret 1
      else raise e
  | Ok image_size =>
  let files := resolve_files W args in
  if Args.annotate args then
    match files with
    | [] => print [PStr "[!] No files specified"] ;; ret 1
    | _ =>
        (if negb (path_exists W (Args.output_dir args))
         then os_makedirs W (Args.output_dir args) else ret tt) ;;
        report_and_run W args checkpoint_file metagraph_file image_size files
    end
  else report_and_run W args checkpoint_file metagraph_file image_size files
  end end end.

(** ** The process: [sys.exit(main())] *)

Record Process := MkProcess {
  log : list event;
  exit_code : Z;
  traceback : option exn
}.

(** A returned code becomes the exit status; an uncaught exception prints a
    traceback and exits with status 1. *)
Definition run (W : World) (args : Args.t) : Process :=
  match main W args with
  | (t, Ok code) => MkProcess t code None
  | (t, Raise e) => MkProcess t 1 (Some e)
  end.

(** ** Vocabulary of the statements *)

(** The array [sample_generator] stores for a file that decodes: resized to
    the target size, three channels, converted to float32. *)
Definition decoded (image_size : Z * Z) (image_file : string) : ndarray :=
  NdArray [snd image_size; fst image_size; 3] Float32 image_file.

(** The [k]-th run of [batch_size] consecutive samples. *)
Definition chunk {A} (batch_size : Z) (samples : list A) (k : nat) : list A :=
  firstn (Z.to_nat batch_size) (skipn (k * Z.to_nat batch_size) samples).

Definition decodable (dims : string -> option (Z * Z)) (path : string) : bool :=
  match dims path with Some _ => true | None => false end.

(** The batch built from a run of files that all decode. *)
Definition batch_of (image_size : Z * Z) (files : list string) : batch :=
  (np_array (map (decoded image_size) files), map basename files).

(** Number of images in a batch. *)
Definition batch_len (b : batch) : nat := List.length (items (fst b)).

(** The [np.save] calls of a log, in order. *)
Fixpoint saves_of (t : list event) : list (string * prediction) :=
  match t with
  | [] => []
  | Save path value :: rest => (path, value) :: saves_of rest
  | _ :: rest => saves_of rest
  end.

(** Where line 158 stores the prediction of the sample called [name]. *)
Definition dump_path (args : Args.t) (name : string) : string :=
  (Args.output_dir args ++ "/" ++ name ++ ".npy")%string.

(** The [np.save] calls a run of batches asks for: for each batch, in order,
    the i-th row of the network's output under the i-th name. *)
Definition expected_saves (W : World) (args : Args.t) (bs : list batch)
  : list (string * prediction) :=
  flat_map (fun b => combine (map (dump_path args) (snd b))
                             (sess_run W (fst b))) bs.

(** The network returns one row per image of the batch. *)
Definition row_per_image (W : World) : Prop :=
  forall x, List.length (sess_run W x) = List.length (items x).

(** No [np.save] raises. *)
Definition saves_succeed (W : World) : Prop :=
  forall path, save_error W path = None.

(** [os.makedirs] of the output directory does not raise. *)
Definition makedirs_succeeds (W : World) (args : Args.t) : Prop :=
  makedirs_error W (Args.output_dir args) = None.

(** An informational line of the report. *)
Definition is_info_line (ev : event) : bool :=
  match ev with
  | Print (PStr s :: _) => String.prefix "[i]" s
  | _ => false
  end.

(** The content of a path after a sequence of saves: the last one wins. *)
Fixpoint written (saves : list (string * prediction)) (path : string)
  : option prediction :=
  match saves with
  | [] => None
  | (p, v) :: rest =>
      match written rest path with
      | Some v' => Some v'
      | None => if String.eqb p path then Some v else None
      end
  end.

(** The [os.makedirs] calls of a log, in order. *)
Fixpoint dirs_of (t : list event) : list string :=
  match t with
  | [] => []
  | MakeDirs d :: rest => d :: dirs_of rest
  | _ :: rest => dirs_of rest
  end.

(** The [sess.run] calls of a log, in order. *)
Fixpoint runs_of (t : list event) : list batch_array :=
  match t with
  | [] => []
  | SessRun x :: rest => x :: runs_of rest
  | _ :: rest => runs_of rest
  end.

(** Events that touch the network. *)
Definition is_model_work (ev : event) : bool :=
  match ev with
  | BuildModel _ _ | SessRun _ => true
  | _ => false
  end.

(** A printed line whose text starts with the error marker. *)
Definition is_error_line (ev : event) : bool :=
  match ev with
  | Print (PStr s :: _) => String.prefix "[!]" s
  | _ => false
  end.

(** A failure to load the training data is reported: the run logs exactly
    one line, an error line, and returns 1 without a traceback. *)
Definition load_failure_reported (W : World) (args : Args.t) : Prop :=
  exists line,
    log (run W args) = [line] /\ is_error_line line = true
    /\ exit_code (run W args) = 1 /\ traceback (run W args) = None.

(** The rows of the network's output over a run of batches, in order: the
    i-th is the row of the i-th processed file. *)
Definition rows_of (W : World) (bs : list batch) : list prediction :=
  flat_map (fun b => sess_run W (fst b)) bs.

(** One file per processed sample, holding that sample's row: the saves
    of the run leave as many files as there are processed samples, and
    for every sample the file named after it holds the sample's row of
    the network's output. *)
Definition one_file_per_sample (W : World) (args : Args.t)
    (image_size : Size) : Prop :=
  let files := resolve_files W args in
  let g := sample_generator (native_dims W) files image_size
             (Args.batch_size args) in
  let saves := saves_of (log (run W args)) in
  List.length (nodup string_dec (map fst saves)) = List.length files
  /\ forall i f v,
       nth_error files i = Some f ->
       nth_error (rows_of W (yielded g)) i = Some v ->
       written saves (dump_path args (basename f)) = Some v.

(** The number of offsets of [range(0, n, b)] for a positive step. *)
Definition n_offsets (n b : Z) : nat := Z.to_nat ((n + b - 1) / b).

Definition has_slash (p : string) : bool :=
  existsb (fun c => Ascii.eqb c "/"%char) (list_ascii_of_string p).

(** ** A small concrete environment

    Four images of different native sizes, two of them with the same base
    name, one file that exists but does not decode, three checkpoints with
    their metagraphs, a readable training-data file whose preset asks for
    300x300 inputs, a network that returns one row per image, an output
    directory that exists and can be written, and the quotient of line 144
    as it is rounded for small numbers, that is, exactly. *)

Definition example_dims (path : string) : option (Z * Z) :=
  if String.eqb path "in/a.jpg" then Some (480, 640)
  else if String.eqb path "in/b.jpg" then Some (1080, 1920)
  else if String.eqb path "c.jpg" then Some (32, 32)
  else if String.eqb path "alt/a.jpg" then Some (600, 800)
  else None.

Definition example_exists (path : string) : bool :=
  existsb (String.eqb path)
    ["in/a.jpg"; "in/b.jpg"; "c.jpg"; "alt/a.jpg"; "in/broken.jpg";
     "test-output";
     "test/final.ckpt.meta"; "test/e10.ckpt.meta"; "test/e20.ckpt.meta"].

Definition example_net (x : batch_array) : list prediction :=
  map (fun a => Prediction (String.length (origin a))) (items x).

Definition example_world : World :=
  MkWorld
    (fun name => if String.eqb name "test"
                 then Some ["test/e10.ckpt"; "test/e20.ckpt"; "test/final.ckpt"]
                 else None)
    example_exists
    (fun path => if String.eqb path "pascal-voc-2007/training-data.pkl"
                 then Ok 3%nat
                 else Raise (Exn FileNotFoundError
                               ("[Errno 2] No such file or directory: '"
                                ++ path ++ "'")%string))
    (fun _ => Ok (PyDict [("preset", PyPreset (MkSize 300 300))]))
    example_dims
    example_net
    (fun _ => None)
    (fun _ => None)
    (fun a b => - ((- a) / b)).

(** The same environment with a training-data file that is not a pickle. *)
Definition corrupt_world : World :=
  MkWorld (checkpoint_state example_world) (path_exists example_world)
    (open_rb example_world)
    (fun _ => Raise (Exn UnpicklingError "invalid load key, 'x'."))
    (native_dims example_world) (sess_run example_world)
    (makedirs_error example_world) (save_error example_world)
    (true_div_ceil example_world).

(** The same environment whose training-data file unpickles to [data]. *)
Definition unpickled_world (data : pyobj) : World :=
  MkWorld (checkpoint_state example_world) (path_exists example_world)
    (open_rb example_world) (fun _ => Ok data)
    (native_dims example_world) (sess_run example_world)
    (makedirs_error example_world) (save_error example_world)
    (true_div_ceil example_world).

(** The same environment with a state that lists a checkpoint whose
    metagraph file is gone. *)
Definition stale_world : World :=
  MkWorld (fun _ => Some ["test/e10.ckpt"; "test/gone.ckpt"])
    (path_exists example_world) (open_rb example_world)
    (pickle_load example_world) (native_dims example_world)
    (sess_run example_world)
    (makedirs_error example_world) (save_error example_world)
    (true_div_ceil example_world).

(** The same environment where the output directory cannot be written:
    every [np.save] raises. *)
Definition readonly_world : World :=
  MkWorld (checkpoint_state example_world) (path_exists example_world)
    (open_rb example_world) (pickle_load example_world)
    (native_dims example_world) (sess_run example_world)
    (makedirs_error example_world)
    (fun path => Some (Exn NotADirectoryError
                         ("[Errno 20] Not a directory: '" ++ path ++ "'")%string))
    (true_div_ceil example_world).

Definition denied : exn :=
  Exn PermissionError "[Errno 13] Permission denied: 'fresh-output'".

Definition locked_world : World :=
  MkWorld (checkpoint_state example_world) (path_exists example_world)
    (open_rb example_world) (pickle_load example_world)
    (native_dims example_world) (sess_run example_world)
    (fun _ => Some denied) (save_error example_world)
    (true_div_ceil example_world).

Definition fresh_args : Args.t :=
  Args.Make ["c.jpg"] "test" (-1) "pascal-voc-2007/training-data.pkl"
    "fresh-output" true false 32.

Definition example_args (files : list string) (checkpoint : Z)
    (annotate dump_prediction : bool) (batch_size : Z) : Args.t :=
  Args.Make files "test" checkpoint "pascal-voc-2007/training-data.pkl"
    "test-output" annotate dump_prediction batch_size.

Definition example_samples : list string := ["in/a.jpg"; "in/b.jpg"; "c.jpg"].

(** ** Facts about the Python primitives *)

Section PyFacts.

Lemma len_nonneg {A} (l : list A) : 0 <= len l.
Proof. unfold len. lia. Qed.

Lemma range_zero_step (start stop : Z) :
  range start stop 0 = Raise (Exn ValueError "range() arg 3 must not be zero").
Proof. reflexivity. Qed.

Lemma range_negative_step (stop step : Z) :
  0 <= stop -> step < 0 -> range 0 stop step = Ok [].
Proof.
  intros Hs Hn. unfold range, get_len_of_range.
  destruct (Z.eqb_spec step 0) as [->|_]; [lia|].
  destruct (Z.ltb_spec 0 step); [lia|].
  destruct (Z.ltb_spec stop 0); [lia|]. reflexivity.
Qed.

Lemma range_positive_step (n b : Z) :
  0 <= n -> 0 < b ->
  range 0 n b = Ok (map (fun i => Z.of_nat i * b) (seq 0 (n_offsets n b))).
Proof.
  intros Hn Hb. unfold range, get_len_of_range, n_offsets.
  destruct (Z.eqb_spec b 0) as [->|_]; [lia|].
  destruct (Z.ltb_spec 0 b); [|lia].
  f_equal.
  destruct (Z.ltb_spec 0 n).
  - replace (n + b - 1) with (n - 0 - 1 + 1 * b) by lia.
    rewrite Z.div_add by lia. reflexivity.
  - assert (n = 0) as -> by lia.
    rewrite Z.div_small by lia. reflexivity.
Qed.

Lemma n_offsets_bounds (n b : Z) :
  0 <= n -> 0 < b ->
  b * (Z.of_nat (n_offsets n b) - 1) < n <= b * Z.of_nat (n_offsets n b).
Proof.
  intros Hn Hb. unfold n_offsets.
  pose proof (Z.div_mod (n + b - 1) b ltac:(lia)) as E.
  pose proof (Z.mod_pos_bound (n + b - 1) b Hb) as M.
  assert (0 <= (n + b - 1) / b) by (apply Z.div_pos; lia).
  rewrite Z2Nat.id by lia. nia.
Qed.

Lemma slice_is_chunk {A} (l : list A) (k : nat) (b : Z) :
  0 < b ->
  slice l (Z.of_nat k * b) (Z.of_nat k * b + b) = chunk b l k.
Proof.
  intros Hb. unfold slice, chunk, clamp_index.
  set (n := len l). set (o := Z.of_nat k * b).
  assert (Ho : 0 <= o) by (subst o; nia).
  assert (Hk : Z.to_nat o = (k * Z.to_nat b)%nat) by (subst o; nia).
  destruct (Z.ltb_spec o 0); [lia|].
  destruct (Z.ltb_spec (o + b) 0); [lia|].
  rewrite <- Hk.
  destruct (Z.le_gt_cases n o) as [Hge|Hlt].
  - rewrite Z.min_r by lia.
    rewrite (skipn_all2 l) by (subst n; unfold len in *; lia).
    rewrite (skipn_all2 l) by (subst n; unfold len in *; lia).
    now rewrite !firstn_nil.
  - rewrite (Z.min_l o n) by lia.
    destruct (Z.le_gt_cases (o + b) n).
    + rewrite Z.min_l by lia. f_equal. lia.
    + rewrite Z.min_r by lia.
      rewrite !firstn_all2; auto; rewrite length_skipn; subst n; unfold len in *; lia.
Qed.

Lemma chunk_length {A} (b : Z) (l : list A) (k : nat) :
  List.length (chunk b l k)
  = Nat.min (Z.to_nat b) (List.length l - k * Z.to_nat b).
Proof. unfold chunk. now rewrite length_firstn, length_skipn. Qed.

Lemma firstn_plus {A} (a b : nat) (l : list A) :
  firstn (a + b) l = firstn a l ++ firstn b (skipn a l).
Proof.
  revert l. induction a as [|a IH]; intros [|x l]; simpl; auto.
  - now rewrite firstn_nil.
  - now rewrite IH.
Qed.

Lemma concat_chunks {A} (b : Z) (l : list A) (n : nat) :
  List.concat (map (chunk b l) (seq 0 n)) = firstn (n * Z.to_nat b) l.
Proof.
  induction n as [|n IH]; [reflexivity|].
  rewrite seq_S, map_app, concat_app, IH. simpl.
  rewrite app_nil_r. unfold chunk.
  replace (Z.to_nat b + n * Z.to_nat b)%nat with (n * Z.to_nat b + Z.to_nat b)%nat by lia.
  now rewrite firstn_plus.
Qed.

Lemma chunk_nth_error {A} (b : Z) (l : list A) (k j : nat) :
  (j < Z.to_nat b)%nat ->
  nth_error (chunk b l k) j = nth_error l (k * Z.to_nat b + j).
Proof.
  intros Hj. unfold chunk.
  rewrite nth_error_firstn.
  destruct (Nat.ltb_spec j (Z.to_nat b)); [|lia].
  now rewrite nth_error_skipn.
Qed.

End PyFacts.

(** ** Facts about [sample_generator] *)

Section GeneratorFacts.

Variable dims : string -> option (Z * Z).

Lemma decode_inv (sz : Z * Z) (f : string) (image : ndarray) :
  cv2_resize (cv2_imread dims f) sz = Ok image ->
  astype image Float32 = decoded sz f
  /\ decodable dims f = true /\ 0 < fst sz /\ 0 < snd sz.
Proof.
  unfold cv2_resize, cv2_imread, decodable, decoded, astype.
  destruct (dims f) as [[rows cols]|]; [|discriminate].
  destruct sz as [width height]. simpl.
  destruct (Z.ltb_spec 0 width); destruct (Z.ltb_spec 0 height);
    simpl; try discriminate.
  intros [= <-]. simpl. auto.
Qed.

Lemma decode_total (sz : Z * Z) (f : string) :
  decodable dims f = true -> 0 < fst sz -> 0 < snd sz ->
  exists image, cv2_resize (cv2_imread dims f) sz = Ok image.
Proof.
  unfold cv2_resize, cv2_imread, decodable.
  destruct (dims f) as [[rows cols]|]; [|discriminate].
  destruct sz as [width height]. simpl. intros _ Hw Hh.
  destruct (Z.ltb_spec 0 width); [|lia].
  destruct (Z.ltb_spec 0 height); [|lia].
  simpl. eauto.
Qed.

Lemma decode_raise (sz : Z * Z) (f : string) (e : exn) :
  cv2_resize (cv2_imread dims f) sz = Raise e -> exn_cls e = CvError.
Proof.
  unfold cv2_resize. destruct (cv2_imread dims f); destruct sz as [width height].
  - destruct (_ && _); [discriminate|]. now intros [= <-].
  - now intros [= <-].
Qed.

Lemma decode_undecodable (sz : Z * Z) (f : string) :
  decodable dims f = false ->
  exists e, cv2_resize (cv2_imread dims f) sz = Raise e.
Proof.
  unfold cv2_resize, cv2_imread, decodable.
  destruct (dims f) as [[rows cols]|]; [discriminate|]. eauto.
Qed.

Lemma read_files_inv (sz : Z * Z) (files : list string) :
  forall images names images' names',
  read_files dims sz files images names = Ok (images', names') ->
  images' = images ++ map (decoded sz) files
  /\ names' = names ++ map basename files
  /\ forallb (decodable dims) files = true
  /\ (files <> [] -> 0 < fst sz /\ 0 < snd sz).
Proof.
  induction files as [|f rest IH]; simpl; intros images names images' names' H.
  - injection H as <- <-. rewrite !app_nil_r. intuition congruence.
  - destruct (cv2_resize (cv2_imread dims f) sz) as [image|e] eqn:E; [|discriminate].
    apply decode_inv in E as (Ea & Ed & Hw & Hh).
    apply IH in H as (-> & -> & Hall & _).
    rewrite Ea, Ed, Hall, <- !app_assoc. simpl. auto.
Qed.

Lemma read_files_total (sz : Z * Z) (files : list string) :
  forallb (decodable dims) files = true -> 0 < fst sz -> 0 < snd sz ->
  forall images names,
  read_files dims sz files images names
  = Ok (images ++ map (decoded sz) files, names ++ map basename files).
Proof.
  intros Hall Hw Hh. induction files as [|f rest IH]; simpl; intros images names.
  - now rewrite !app_nil_r.
  - simpl in Hall. apply andb_prop in Hall as [Hf Hrest].
    destruct (decode_total sz f Hf Hw Hh) as [image E]. rewrite E.
    apply decode_inv in E as (Ea & _). rewrite Ea, IH by assumption.
    now rewrite <- !app_assoc.
Qed.

Lemma read_files_raise (sz : Z * Z) (files : list string) :
  forall images names e,
  read_files dims sz files images names = Raise e -> exn_cls e = CvError.
Proof.
  induction files as [|f rest IH]; simpl; intros images names e H; [discriminate|].
  destruct (cv2_resize (cv2_imread dims f) sz) as [image|e'] eqn:E.
  - eauto.
  - injection H as <-. eapply decode_raise; eauto.
Qed.

Lemma read_files_undecodable (sz : Z * Z) (files : list string) :
  forallb (decodable dims) files = false ->
  forall images names, exists e,
  read_files dims sz files images names = Raise e.
Proof.
  induction files as [|f rest IH]; simpl; intros Hall images names; [discriminate|].
  destruct (decodable dims f) eqn:Hf; simpl in Hall.
  - destruct (cv2_resize (cv2_imread dims f) sz) as [image|e] eqn:E; eauto.
  - destruct (decode_undecodable sz f Hf) as [e ->]. eauto.
Qed.

Lemma generate_nth (samples : list string) (sz : Z * Z) (B : Z)
    (offsets : list Z) :
  forall k b,
  nth_error (yielded (generate dims samples sz B offsets)) k = Some b ->
  exists o images names,
    nth_error offsets k = Some o
    /\ read_files dims sz (slice samples o (o + B)) [] [] = Ok (images, names)
    /\ b = (np_array images, names).
Proof.
  induction offsets as [|o rest IH]; simpl; intros k b H.
  - destruct k; discriminate.
  - destruct (read_files dims sz (slice samples o (o + B)) [] [])
      as [[images names]|e] eqn:E; simpl in H.
    + destruct k as [|k]; simpl in H.
      * injection H as <-. exists o, images, names. auto.
      * apply IH in H. exact H.
    + destruct k; discriminate.
Qed.

Lemma generate_total (samples : list string) (sz : Z * Z) (B : Z)
    (offsets : list Z) :
  0 < fst sz -> 0 < snd sz ->
  (forall o, In o offsets ->
     forallb (decodable dims) (slice samples o (o + B)) = true) ->
  yielded (generate dims samples sz B offsets)
  = map (fun o => batch_of sz (slice samples o (o + B))) offsets
  /\ raised (generate dims samples sz B offsets) = None.
Proof.
  intros Hw Hh. induction offsets as [|o rest IH]; simpl; intros Hall; [auto|].
  rewrite read_files_total by auto. simpl.
  destruct IH as [IHy IHr]; [auto|]. rewrite IHy, IHr. auto.
Qed.

Lemma generate_raise (samples : list string) (sz : Z * Z) (B : Z)
    (offsets : list Z) (e : exn) :
  raised (generate dims samples sz B offsets) = Some e -> exn_cls e = CvError.
Proof.
  induction offsets as [|o rest IH]; simpl; [discriminate|].
  destruct (read_files dims sz (slice samples o (o + B)) [] [])
    as [[images names]|e'] eqn:E; simpl.
  - exact IH.
  - intros [= <-]. eapply read_files_raise; eauto.
Qed.

Lemma generate_stops_at (samples : list string) (sz : Z * Z) (B : Z)
    (offsets : list Z) :
  forall k o,
  nth_error offsets k = Some o ->
  forallb (decodable dims) (slice samples o (o + B)) = false ->
  (List.length (yielded (generate dims samples sz B offsets)) <= k)%nat
  /\ exists e, raised (generate dims samples sz B offsets) = Some e.
Proof.
  induction offsets as [|o' rest IH]; intros k o Hk Hbad.
  - destruct k; discriminate.
  - simpl. destruct k as [|k]; simpl in Hk.
    + injection Hk as ->.
      destruct (read_files_undecodable sz _ Hbad [] []) as [e ->]. simpl. eauto.
    + destruct (read_files dims sz (slice samples o' (o' + B)) [] [])
        as [[images names]|e] eqn:E; simpl.
      * destruct (IH k o Hk Hbad) as [Hlen Hr]. split; [lia|exact Hr].
      * split; [lia|eauto].
Qed.

Lemma sample_generator_positive (samples : list string) (image_size : Size)
    (B : Z) :
  0 < B ->
  sample_generator dims samples image_size B
  = generate dims samples (w image_size, h image_size) B
      (map (fun i => Z.of_nat i * B) (seq 0 (n_offsets (len samples) B))).
Proof.
  intros HB. unfold sample_generator.
  now rewrite range_positive_step by (auto using len_nonneg).
Qed.

Lemma sample_generator_nonpositive (samples : list string) (image_size : Size)
    (B : Z) :
  B <= 0 -> yielded (sample_generator dims samples image_size B) = [].
Proof.
  intros HB. unfold sample_generator.
  destruct (Z.eq_dec B 0) as [->|Hne].
  - reflexivity.
  - now rewrite range_negative_step by (auto using len_nonneg; lia).
Qed.

Lemma nth_error_offsets (B : Z) (n k : nat) (o : Z) :
  nth_error (map (fun i => Z.of_nat i * B) (seq 0 n)) k = Some o ->
  (k < n)%nat /\ o = Z.of_nat k * B.
Proof.
  intros H. rewrite nth_error_map in H.
  destruct (nth_error (seq 0 n) k) as [i|] eqn:E; [|discriminate].
  injection H as <-.
  assert (Hk : (k < n)%nat).
  { rewrite <- (length_seq n 0). apply nth_error_Some. congruence. }
  rewrite (nth_error_nth' _ 0%nat) in E by (now rewrite length_seq).
  rewrite seq_nth in E by assumption. injection E as <-. auto.
Qed.

Lemma chunk_nonempty {A} (B : Z) (l : list A) (k : nat) :
  0 < B -> (k < n_offsets (len l) B)%nat -> chunk B l k <> [].
Proof.
  intros HB Hk Hnil.
  apply (f_equal (@List.length A)) in Hnil. rewrite chunk_length in Hnil.
  simpl in Hnil.
  pose proof (n_offsets_bounds (len l) B (len_nonneg l) HB) as [Hlo _].
  unfold len in *. nia.
Qed.

(** Every yielded batch is the batch of the chunk at its position, and that
    chunk is a non-empty run of files that decode. *)
Lemma sample_generator_nth (samples : list string) (image_size : Size)
    (B : Z) (k : nat) (b : batch) :
  nth_error (yielded (sample_generator dims samples image_size B)) k = Some b ->
  0 < B
  /\ (k < n_offsets (len samples) B)%nat
  /\ b = batch_of (w image_size, h image_size) (chunk B samples k)
  /\ chunk B samples k <> []
  /\ forallb (decodable dims) (chunk B samples k) = true
  /\ 0 < w image_size /\ 0 < h image_size.
Proof.
  intros H.
  destruct (Z.lt_ge_cases 0 B) as [HB|HB].
  2:{ rewrite sample_generator_nonpositive in H by lia. destruct k; discriminate. }
  rewrite sample_generator_positive in H by assumption.
  apply generate_nth in H as (o & images & names & Ho & Hr & ->).
  apply nth_error_offsets in Ho as [Hk ->].
  rewrite slice_is_chunk in Hr by assumption.
  apply read_files_inv in Hr as (-> & -> & Hall & Hsz).
  pose proof (chunk_nonempty B samples k HB Hk) as Hne.
  destruct (Hsz Hne) as [Hw Hh]. simpl in Hw, Hh.
  simpl. unfold batch_of. auto 10.
Qed.

End GeneratorFacts.

(** ** [os.path.basename] strips the directory part *)

Section BasenameFacts.

Lemma rfind_slash_from_shift (p : string) :
  forall i last,
  rfind_slash_from i p last
  = if has_slash p then Z.of_nat i + rfind_slash p else last.
Proof.
  unfold rfind_slash.
  induction p as [|c r IH]; intros i last; [reflexivity|].
  cbn [rfind_slash_from]. rewrite (IH (S i)), (IH 1%nat).
  unfold has_slash in *. cbn [list_ascii_of_string existsb].
  destruct (Ascii.eqb c "/"); destruct (existsb _ (list_ascii_of_string r));
    cbn [orb]; lia.
Qed.

Lemma rfind_slash_lower (p : string) : -1 <= rfind_slash p.
Proof.
  induction p as [|c r IH]; [unfold rfind_slash; simpl; lia|].
  unfold rfind_slash. cbn [rfind_slash_from].
  rewrite rfind_slash_from_shift.
  destruct (has_slash r); [lia|]. destruct (Ascii.eqb c "/"); lia.
Qed.

Lemma basename_cons (c : ascii) (r : string) :
  basename (String c r)
  = if has_slash r then basename r
    else if Ascii.eqb c "/" then r else String c r.
Proof.
  unfold basename, rfind_slash. cbn [rfind_slash_from].
  rewrite rfind_slash_from_shift.
  pose proof (rfind_slash_lower r) as Hlo. unfold rfind_slash in Hlo.
  destruct (has_slash r).
  - fold (rfind_slash r).
    replace (Z.to_nat (Z.of_nat 1 + rfind_slash r + 1))
      with (S (Z.to_nat (rfind_slash r + 1))) by (unfold rfind_slash; lia).
    reflexivity.
  - destruct (Ascii.eqb c "/"); reflexivity.
Qed.

Lemma has_slash_cons (c : ascii) (r : string) :
  has_slash (String c r) = Ascii.eqb c "/" || has_slash r.
Proof. reflexivity. Qed.

(** The result holds no separator. *)
Lemma basename_no_slash (p : string) : has_slash (basename p) = false.
Proof.
  induction p as [|c r IH]; [reflexivity|].
  rewrite basename_cons.
  destruct (has_slash r) eqn:Hr; [exact IH|].
  destruct (Ascii.eqb c "/") eqn:Hc; [exact Hr|].
  now rewrite has_slash_cons, Hc, Hr.
Qed.

(** The result is what follows the directory part: the path is a prefix
    that is empty or ends in a separator, followed by the result. *)
Lemma basename_suffix (p : string) :
  exists dir, p = (dir ++ basename p)%string
    /\ (dir = "" \/ exists d, dir = (d ++ "/")%string).
Proof.
  induction p as [|c r IH].
  - exists "". auto.
  - rewrite basename_cons.
    destruct (has_slash r) eqn:Hr.
    + destruct IH as (dir & E & Hd). exists (String c dir). split.
      * simpl. now rewrite <- E.
      * right. destruct Hd as [->|[d ->]].
        -- exfalso. pose proof (basename_no_slash r) as Hn.
           simpl in E. rewrite <- E in Hn. congruence.
        -- exists (String c d). reflexivity.
    + destruct (Ascii.eqb_spec c "/") as [->|Hc].
      * exists "/". split; [reflexivity|]. right. exists "". reflexivity.
      * exists "". auto.
Qed.

End BasenameFacts.

(** ** Batching *)

Section Batching.

Variable dims : string -> option (Z * Z).

Lemma forallb_firstn {A} (f : A -> bool) (n : nat) (l : list A) :
  forallb f l = true -> forallb f (firstn n l) = true.
Proof.
  revert n. induction l as [|a l IH]; intros [|n] H; simpl in *; auto.
  apply andb_prop in H as [-> H]. simpl. auto.
Qed.

Lemma forallb_skipn {A} (f : A -> bool) (n : nat) (l : list A) :
  forallb f l = true -> forallb f (skipn n l) = true.
Proof.
  revert n. induction l as [|a l IH]; intros [|n] H; simpl in *; auto.
  apply andb_prop in H as [_ H]. auto.
Qed.

Lemma forallb_slice {A} (f : A -> bool) (l : list A) (lo hi : Z) :
  forallb f l = true -> forallb f (slice l lo hi) = true.
Proof. intros H. unfold slice. now apply forallb_firstn, forallb_skipn. Qed.

Lemma list_Z_eqb_refl (a : list Z) : list_Z_eqb a a = true.
Proof. unfold list_Z_eqb. destruct (list_eq_dec Z.eq_dec a a); congruence. Qed.

Lemma items_np_array (l : list ndarray) : items (np_array l) = l.
Proof.
  destruct l as [|a rest]; [reflexivity|]. simpl.
  destruct (forallb _ rest); reflexivity.
Qed.

Lemma np_array_decoded (sz : Z * Z) (files : list string) :
  files <> [] ->
  np_array (map (decoded sz) files)
  = BatchArray [len files; snd sz; fst sz; 3] Float32 (map (decoded sz) files).
Proof.
  destruct files as [|f rest]; [congruence|]. intros _.
  cbn [map np_array].
  replace (forallb _ (map (decoded sz) rest)) with true.
  - unfold len. cbn [decoded shape elt List.length]. now rewrite !length_map.
  - symmetry. apply forallb_forall. intros a Ha.
    apply in_map_iff in Ha as (f' & <- & _). simpl.
    now rewrite list_Z_eqb_refl.
Qed.

Lemma batch_len_batch_of (sz : Z * Z) (files : list string) :
  batch_len (batch_of sz files) = List.length files.
Proof.
  unfold batch_len, batch_of. simpl. now rewrite items_np_array, length_map.
Qed.

Lemma sum_lengths {A} (ls : list (list A)) :
  fold_right Z.add 0 (map (fun l => Z.of_nat (List.length l)) ls)
  = Z.of_nat (List.length (List.concat ls)).
Proof.
  induction ls as [|l ls IH]; [reflexivity|].
  simpl. rewrite IH, length_app. lia.
Qed.

(** With every sample decodable the generator runs to completion and
    yields the batch of each chunk, in order. *)
Lemma sample_generator_total (samples : list string) (image_size : Size)
    (B : Z) :
  0 < B -> 0 < w image_size -> 0 < h image_size ->
  forallb (decodable dims) samples = true ->
  yielded (sample_generator dims samples image_size B)
  = map (fun k => batch_of (w image_size, h image_size) (chunk B samples k))
        (seq 0 (n_offsets (len samples) B))
  /\ raised (sample_generator dims samples image_size B) = None.
Proof.
  intros HB Hw Hh Hall.
  rewrite sample_generator_positive by assumption.
  destruct (generate_total dims samples (w image_size, h image_size) B
              (map (fun i => Z.of_nat i * B) (seq 0 (n_offsets (len samples) B))))
    as [Hy Hr]; auto.
  - intros o _. now apply forallb_slice.
  - split; [|exact Hr]. rewrite Hy, map_map.
    apply map_ext. intros k. now rewrite slice_is_chunk.
Qed.

(** C1. For a batch size [B > 0] and [N] samples that all decode,
    [sample_generator] runs to completion and yields exactly ceil(N/B)
    batches; their sizes sum to [N]; every batch but the last holds exactly
    [B] images; no batch is empty; and with no sample nothing is yielded. *)
Theorem sample_generator_batching (samples : list string)
    (image_size : Size) (B : Z) :
  0 < B -> 0 < w image_size -> 0 < h image_size ->
  forallb (decodable dims) samples = true ->
  let g := sample_generator dims samples image_size B in
  let N := len samples in
  raised g = None
  /\ len (yielded g) = (N + B - 1) / B
  /\ B * (len (yielded g) - 1) < N <= B * len (yielded g)
  /\ fold_right Z.add 0 (map (fun b => Z.of_nat (batch_len b)) (yielded g)) = N
  /\ (forall k b, nth_error (yielded g) k = Some b ->
        (S k < List.length (yielded g))%nat -> Z.of_nat (batch_len b) = B)
  /\ (forall b, In b (yielded g) -> batch_len b <> 0%nat)
  /\ (N = 0 -> yielded g = []).
Proof.
  intros HB Hw Hh Hall. cbv zeta.
  destruct (sample_generator_total samples image_size B HB Hw Hh Hall)
    as [Hy Hr].
  set (g := sample_generator dims samples image_size B) in *.
  pose proof (len_nonneg samples) as HN0.
  set (N := len samples) in *.
  pose proof (n_offsets_bounds N B HN0 HB) as Hbounds.
  assert (Hcount : List.length (yielded g) = n_offsets N B).
  { now rewrite Hy, length_map, length_seq. }
  assert (Hlen : len (yielded g) = Z.of_nat (n_offsets N B)).
  { unfold len. now rewrite Hcount. }
  split; [exact Hr|].
  split.
  { rewrite Hlen. unfold n_offsets. apply Z2Nat.id.
    apply Z.div_pos; lia. }
  split; [rewrite Hlen; exact Hbounds|].
  split.
  { rewrite Hy, map_map.
    rewrite (map_ext _ (fun k => Z.of_nat (List.length (chunk B samples k))))
      by (intros k; now rewrite batch_len_batch_of).
    rewrite <- (map_map (chunk B samples) (fun l => Z.of_nat (List.length l))).
    rewrite sum_lengths, concat_chunks, firstn_all2; [reflexivity|].
    subst N. unfold len in *. nia. }
  split.
  { intros k b Hk Hlast.
    apply sample_generator_nth in Hk as (_ & _ & -> & _).
    rewrite batch_len_batch_of, chunk_length.
    rewrite Hcount in Hlast. subst N. unfold len in *. nia. }
  split.
  { intros b Hb. apply In_nth_error in Hb as [k Hk].
    apply sample_generator_nth in Hk as (_ & _ & -> & Hne & _).
    rewrite batch_len_batch_of. intros Hz. apply Hne.
    now apply length_zero_iff_nil. }
  intros HN. apply length_zero_iff_nil. rewrite Hcount.
  unfold n_offsets. rewrite HN. rewrite Z.div_small by lia. reflexivity.
Qed.

End Batching.

(** C1 at three samples and batches of two: two batches. *)
Lemma sample_generator_batching_witness :
  let g := sample_generator example_dims example_samples (MkSize 300 300) 2 in
  raised g = None
  /\ len (yielded g) = (3 + 2 - 1) / 2
  /\ 2 * (len (yielded g) - 1) < 3 <= 2 * len (yielded g)
  /\ fold_right Z.add 0 (map (fun b => Z.of_nat (batch_len b)) (yielded g)) = 3
  /\ (forall k b, nth_error (yielded g) k = Some b ->
        (S k < List.length (yielded g))%nat -> Z.of_nat (batch_len b) = 2)
  /\ (forall b, In b (yielded g) -> batch_len b <> 0%nat)
  /\ (3 = 0 -> yielded g = []).
Proof.
  apply (sample_generator_batching example_dims example_samples
           (MkSize 300 300) 2); [lia | simpl; lia | simpl; lia | reflexivity].
Defined.

(** C4. In every yielded batch the names are as many as the images and in
    the same order (the i-th name is the base name of the file the i-th
    image was decoded from), and for every global index [i] the name at
    position [i mod B] of batch [i / B] is the base file name of
    [samples[i]]. The base name is the path with its directory part
    stripped: the path is a directory prefix, empty or ending in the
    separator, followed by the name, and the name holds no separator. *)
Theorem batch_names_follow_samples (dims : string -> option (Z * Z))
    (samples : list string) (image_size : Size) (B : Z) (k : nat)
    (x : batch_array) (names : list string) :
  nth_error (yielded (sample_generator dims samples image_size B)) k
    = Some (x, names) ->
  List.length names = List.length (items x)
  /\ map (fun a => basename (origin a)) (items x) = names
  /\ (forall i f,
        nth_error samples i = Some f -> (i / Z.to_nat B)%nat = k ->
        nth_error names (i mod Z.to_nat B) = Some (basename f)
        /\ option_map origin (nth_error (items x) (i mod Z.to_nat B)) = Some f)
  /\ Forall2 (fun a n =>
                has_slash n = false
                /\ exists dir, origin a = (dir ++ n)%string
                     /\ (dir = "" \/ exists d, dir = (d ++ "/")%string))
       (items x) names.
Proof.
  intros H.
  apply sample_generator_nth in H as (HB & _ & E & _).
  unfold batch_of in E. injection E as -> ->.
  rewrite items_np_array, !length_map, map_map. simpl.
  split; [reflexivity|]. split; [reflexivity|]. split.
  - intros i f Hi Hk.
    assert (Hb : Z.to_nat B <> 0%nat) by lia.
    assert (Hj : (i mod Z.to_nat B < Z.to_nat B)%nat)
      by (now apply Nat.mod_upper_bound).
    assert (Hc : nth_error (chunk B samples k) (i mod Z.to_nat B) = Some f).
    { rewrite chunk_nth_error by assumption. rewrite <- Hi. f_equal.
      subst k. rewrite (Nat.div_mod_eq i (Z.to_nat B)) at 3. lia. }
    rewrite !nth_error_map, Hc. auto.
  - induction (chunk B samples k) as [|f l IH]; simpl; constructor; [|exact IH].
    split; [apply basename_no_slash|apply basename_suffix].
Qed.

Lemma batch_names_follow_samples_witness :
  let x := BatchArray [2; 300; 300; 3] Float32
             [decoded (300, 300) "in/a.jpg"; decoded (300, 300) "in/b.jpg"] in
  let names := ["a.jpg"; "b.jpg"] in
  List.length names = List.length (items x)
  /\ map (fun a => basename (origin a)) (items x) = names
  /\ (forall i f,
        nth_error example_samples i = Some f -> (i / Z.to_nat 2)%nat = 0%nat ->
        nth_error names (i mod Z.to_nat 2) = Some (basename f)
        /\ option_map origin (nth_error (items x) (i mod Z.to_nat 2)) = Some f)
  /\ Forall2 (fun a n =>
                has_slash n = false
                /\ exists dir, origin a = (dir ++ n)%string
                     /\ (dir = "" \/ exists d, dir = (d ++ "/")%string))
       (items x) names.
Proof.
  apply (batch_names_follow_samples example_dims example_samples
           (MkSize 300 300) 2 0).
  reflexivity.
Defined.

(** C5. Every image of every yielded batch has shape (height, width, 3)
    for the configured height and width, whatever the native size of its
    file, and is float32; the stacked array has shape
    (count, height, width, 3) and a floating-point element type. *)
Theorem batch_images_have_target_shape (dims : string -> option (Z * Z))
    (samples : list string) (image_size : Size) (B : Z) (k : nat)
    (x : batch_array) (names : list string) :
  nth_error (yielded (sample_generator dims samples image_size B)) k
    = Some (x, names) ->
  Forall (fun a => shape a = [h image_size; w image_size; 3]
                   /\ elt a = Float32) (items x)
  /\ bshape x = [len names; h image_size; w image_size; 3]
  /\ belt x = Float32
  /\ is_floating (belt x) = true.
Proof.
  intros H.
  apply sample_generator_nth in H as (_ & _ & E & Hne & _).
  unfold batch_of in E. injection E as -> ->.
  rewrite np_array_decoded by assumption. simpl.
  split.
  - apply Forall_forall. intros a Ha.
    apply in_map_iff in Ha as (f & <- & _). auto.
  - unfold len. rewrite length_map. auto.
Qed.

Lemma batch_images_have_target_shape_witness :
  let x := BatchArray [2; 200; 300; 3] Float32
             [decoded (300, 200) "in/a.jpg"; decoded (300, 200) "in/b.jpg"] in
  Forall (fun a => shape a = [200; 300; 3] /\ elt a = Float32) (items x)
  /\ bshape x = [len ["a.jpg"; "b.jpg"]; 200; 300; 3]
  /\ belt x = Float32
  /\ is_floating (belt x) = true.
Proof.
  apply (batch_images_have_target_shape example_dims example_samples
           (MkSize 300 200) 2 0).
  reflexivity.
Defined.

(** C10. The positive batch size is needed: with a batch size of zero the
    generator raises [ValueError] on its first advancement, before any
    yield; with a negative batch size it stops at once without a yield,
    whatever the samples. *)
Theorem sample_generator_nonpositive_batch_size
    (dims : string -> option (Z * Z)) (samples : list string)
    (image_size : Size) :
  sample_generator dims samples image_size 0
    = GRaise (Exn ValueError "range() arg 3 must not be zero")
  /\ (forall B, B < 0 -> sample_generator dims samples image_size B = GStop).
Proof.
  split; [reflexivity|].
  intros B HB. unfold sample_generator.
  now rewrite range_negative_step by (auto using len_nonneg).
Qed.

Lemma sample_generator_nonpositive_batch_size_witness :
  example_samples <> []
  /\ sample_generator example_dims example_samples (MkSize 300 300) (-2) = GStop.
Proof.
  split; [discriminate|].
  apply (sample_generator_nonpositive_batch_size example_dims example_samples
           (MkSize 300 300)).
  lia.
Defined.

(** ** The driver monad *)

Section MonadFacts.

Lemma fst_bind {A B} (m : M A) (f : A -> M B) :
  fst (bind m f)
  = fst m ++ match snd m with Ok a => fst (f a) | Raise _ => [] end.
Proof.
  destruct m as [t [a|e]]; simpl.
  - now destruct (f a).
  - now rewrite app_nil_r.
Qed.

Lemma snd_bind {A B} (m : M A) (f : A -> M B) :
  snd (bind m f)
  = match snd m with Ok a => snd (f a) | Raise e => Raise e end.
Proof.
  destruct m as [t [a|e]]; simpl; [|reflexivity]. now destruct (f a).
Qed.

Lemma bind_emit {B} (ev : event) (k : M B) :
  (emit ev ;; k) = (ev :: fst k, snd k).
Proof. unfold bind, emit. now destruct k. Qed.

Lemma bind_ret {A B} (a : A) (f : A -> M B) : bind (ret a) f = f a.
Proof. unfold bind, ret. now destruct (f a). Qed.

Lemma bind_raise {A B} (e : exn) (f : A -> M B) :
  bind (lift (Raise e)) f = raise e.
Proof. reflexivity. Qed.

Lemma bind_lift_ok {A B} (a : A) (f : A -> M B) : bind (lift (Ok a)) f = f a.
Proof. unfold bind, lift. now destruct (f a). Qed.

Lemma saves_of_app (t1 t2 : list event) :
  saves_of (t1 ++ t2) = saves_of t1 ++ saves_of t2.
Proof.
  induction t1 as [|ev t1 IH]; [reflexivity|].
  destruct ev; simpl; rewrite IH; reflexivity.
Qed.

Lemma saves_of_Save (l : list (string * prediction)) :
  saves_of (map (fun pv => Save (fst pv) (snd pv)) l) = l.
Proof.
  induction l as [|[path v] l IH]; [reflexivity|]. simpl. now rewrite IH.
Qed.

End MonadFacts.

(** ** The consumer loop *)

Section ConsumerFacts.

Variables (W : World) (args : Args.t).

Lemma index_app_middle {A} (pre : list A) (a : A) (post : list A) :
  index (pre ++ a :: post) (Z.of_nat (List.length pre) * 1) = Ok a.
Proof.
  unfold index, len. rewrite Z.mul_1_r.
  destruct (Z.ltb_spec (Z.of_nat (List.length pre)) 0); [lia|].
  rewrite length_app. simpl List.length.
  destruct (Z.leb_spec 0 (Z.of_nat (List.length pre))); [|lia].
  destruct (Z.ltb_spec (Z.of_nat (List.length pre))
              (Z.of_nat (List.length pre + S (List.length post)))); [|lia].
  simpl. rewrite Nat2Z.id, nth_error_app2 by lia.
  now rewrite Nat.sub_diag.
Qed.

Lemma attempt_log (failure : option exn) : fst (attempt failure) = [].
Proof. now destruct failure. Qed.

Lemma np_save_log (path : string) (v : prediction) :
  fst (np_save W path v) = [Save path v].
Proof. unfold np_save. rewrite bind_emit. cbn [fst]. now rewrite attempt_log. Qed.

Lemma np_save_ok (path : string) (v : prediction) :
  save_error W path = None -> np_save W path v = ([Save path v], Ok tt).
Proof. intros H. unfold np_save. now rewrite H. Qed.

Lemma os_makedirs_log (path : string) :
  fst (os_makedirs W path) = [MakeDirs path].
Proof.
  unfold os_makedirs. rewrite bind_emit. cbn [fst]. now rewrite attempt_log.
Qed.

Lemma os_makedirs_cases (path : string) :
  os_makedirs W path
  = ([MakeDirs path],
     match makedirs_error W path with Some e => Raise e | None => Ok tt end).
Proof. unfold os_makedirs. now destruct (makedirs_error W path). Qed.

Lemma os_makedirs_result (path : string) :
  snd (os_makedirs W path)
  = match makedirs_error W path with Some e => Raise e | None => Ok tt end.
Proof.
  unfold os_makedirs. rewrite bind_emit. cbn [snd].
  now destruct (makedirs_error W path).
Qed.

Lemma dump_loop_from (names : list string) :
  saves_succeed W ->
  forall (boxes : list prediction) (names0 : list string)
         (boxes0 : list prediction),
  List.length boxes = List.length names ->
  List.length boxes0 = List.length names0 ->
  dump_loop W args (names0 ++ names) (boxes0 ++ boxes)
    (map (fun i => Z.of_nat i * 1) (seq (List.length names0) (List.length names)))
  = (map (fun pv => Save (fst pv) (snd pv))
         (combine (map (dump_path args) names) boxes), Ok tt).
Proof.
  intros Hsave.
  induction names as [|n names IH]; intros boxes names0 boxes0 Hl Hl0.
  - reflexivity.
  - destruct boxes as [|b boxes]; [discriminate|].
    simpl List.length. cbn [seq map dump_loop combine].
    rewrite index_app_middle, bind_lift_ok.
    rewrite <- Hl0, index_app_middle, bind_lift_ok, Hl0.
    rewrite np_save_ok by apply Hsave.
    change ([Save (Args.output_dir args ++ "/" ++ n ++ ".npy") b], Ok tt)
      with (emit (Save (Args.output_dir args ++ "/" ++ n ++ ".npy") b)).
    rewrite bind_emit.
    replace (names0 ++ n :: names) with ((names0 ++ [n]) ++ names)
      by (now rewrite <- app_assoc).
    replace (boxes0 ++ b :: boxes) with ((boxes0 ++ [b]) ++ boxes)
      by (now rewrite <- app_assoc).
    replace (S (List.length names0)) with (List.length (names0 ++ [n]))
      by (rewrite length_app; simpl; lia).
    rewrite IH.
    + reflexivity.
    + simpl in Hl. lia.
    + rewrite !length_app. simpl. lia.
Qed.

Lemma range_len {A} (l : list A) :
  range 0 (len l) 1
  = Ok (map (fun i => Z.of_nat i * 1) (seq 0 (List.length l))).
Proof.
  rewrite range_positive_step by (auto using len_nonneg; lia).
  unfold n_offsets, len.
  replace (Z.of_nat (List.length l) + 1 - 1) with (Z.of_nat (List.length l)) by lia.
  now rewrite Z.div_1_r, Nat2Z.id.
Qed.

Lemma dump_loop_log (names : list string) (boxes : list prediction)
    (indices : list Z) :
  exists l, fst (dump_loop W args names boxes indices)
            = map (fun pv => Save (fst pv) (snd pv)) l.
Proof.
  induction indices as [|i rest [l IH]]; [now exists []|].
  cbn [dump_loop].
  destruct (index names i) as [n|e]; [|now exists []].
  rewrite bind_lift_ok.
  destruct (index boxes i) as [b|e]; [|now exists []].
  rewrite bind_lift_ok, fst_bind, np_save_log.
  destruct (snd (np_save W _ b)).
  - rewrite IH. now exists ((dump_path args n, b) :: l).
  - now exists [(dump_path args n, b)].
Qed.

Lemma dump_step_log (names : list string) (boxes : list prediction) :
  exists l, fst (dump_step W args names boxes)
            = map (fun pv => Save (fst pv) (snd pv)) l
    /\ (Args.annotate args && Args.dump_prediction args = false -> l = []).
Proof.
  unfold dump_step.
  destruct (Args.annotate args && Args.dump_prediction args).
  - destruct (range 0 (len names) 1) as [indices|e].
    + rewrite bind_lift_ok.
      destruct (dump_loop_log names boxes indices) as [l Hl].
      exists l. split; [exact Hl|discriminate].
    + exists []. split; [reflexivity|discriminate].
  - exists []. auto.
Qed.

Lemma dump_step_on (names : list string) (boxes : list prediction) :
  saves_succeed W ->
  Args.annotate args && Args.dump_prediction args = true ->
  List.length boxes = List.length names ->
  dump_step W args names boxes
  = (map (fun pv => Save (fst pv) (snd pv))
         (combine (map (dump_path args) names) boxes), Ok tt).
Proof.
  intros Hsave Hflags Hlen.
  unfold dump_step. rewrite Hflags, range_len, bind_lift_ok.
  exact (dump_loop_from names Hsave boxes [] [] Hlen eq_refl).
Qed.

(** The loop logs nothing but network runs and, when both flags are set,
    saves. *)
Lemma process_log (g : gen batch) (ev : event) :
  In ev (fst (process W args g)) ->
  (exists x, ev = SessRun x)
  \/ (exists path v, ev = Save path v
        /\ Args.annotate args && Args.dump_prediction args = true).
Proof.
  induction g as [| e | [x names] k IH];
    [simpl; tauto | simpl; tauto | cbn [process]].
  rewrite bind_emit. cbn [fst]. rewrite fst_bind.
  destruct (dump_step_log names (sess_run W x)) as (l & Hl & Hoff).
  rewrite Hl. intros [<-|Hin]; [eauto|].
  apply in_app_or in Hin as [Hin|Hin].
  - right. apply in_map_iff in Hin as ([path v] & <- & Hpv).
    exists path, v. split; [reflexivity|].
    destruct (Args.annotate args && Args.dump_prediction args); [reflexivity|].
    rewrite Hoff in Hpv by reflexivity. destruct Hpv.
  - destruct (snd (dump_step W args names (sess_run W x))); [auto|destruct Hin].
Qed.

Lemma process_saves (g : gen batch) :
  Args.annotate args && Args.dump_prediction args = true ->
  row_per_image W -> saves_succeed W ->
  Forall (fun b => List.length (snd b) = List.length (items (fst b))) (yielded g) ->
  saves_of (fst (process W args g)) = expected_saves W args (yielded g)
  /\ snd (process W args g)
     = match raised g with None => Ok tt | Some e => Raise e end.
Proof.
  intros Hflags Hnet Hsave.
  induction g as [| e | [x names] k IH]; intros Hlen;
    [simpl; auto | simpl; auto | cbn [process yielded raised] in *].
  inversion Hlen as [|b bs Hb Hbs]; subst. simpl in Hb.
  destruct (IH Hbs) as [IHs IHr].
  rewrite bind_emit.
  rewrite dump_step_on by (rewrite ?Hnet; auto).
  cbn [fst snd]. rewrite fst_bind, snd_bind. cbn [fst snd saves_of].
  now rewrite saves_of_app, saves_of_Save, IHs, IHr.
Qed.

(** An exception escaping the generator is never turned into a normal end
    of the loop, and nothing is processed after it. *)
Lemma process_raised (g : gen batch) (e : exn) :
  raised g = Some e -> exists e', snd (process W args g) = Raise e'.
Proof.
  induction g as [| e0 | [x names] k IH]; cbn [process raised]; intros H.
  - discriminate.
  - simpl. eauto.
  - rewrite bind_emit. cbn [snd]. rewrite snd_bind.
    destruct (snd (dump_step W args names (sess_run W x))); eauto.
Qed.

End ConsumerFacts.

(** ** The driver past the generator *)

Section ReportFacts.

Variables (W : World) (args : Args.t).
Variables (checkpoint_file metagraph_file : string) (image_size : Size).
Variable files : list string.

Local Abbreviation g :=
  (sample_generator (native_dims W) files image_size (Args.batch_size args)).

Lemma print_parameters_ok :
  snd (print_parameters args checkpoint_file metagraph_file image_size files)
    = Ok tt
  /\ forallb is_info_line
       (fst (print_parameters args checkpoint_file metagraph_file image_size files))
     = true.
Proof. split; reflexivity. Qed.

Lemma run_network_unfold :
  run_network W args checkpoint_file metagraph_file image_size files
  = if Args.batch_size args =? 0 then
      ([Print [PStr "[i] Creating the model..."];
        BuildModel metagraph_file checkpoint_file],
       Raise (Exn ZeroDivisionError "division by zero"))
    else
      (Print [PStr "[i] Creating the model..."]
         :: BuildModel metagraph_file checkpoint_file
         :: fst (process W args g),
       snd (process W args g)).
Proof.
  unfold run_network, n_sample_batches, print. rewrite !bind_emit.
  destruct (Args.batch_size args =? 0).
  - reflexivity.
  - rewrite bind_lift_ok. reflexivity.
Qed.

Lemma report_and_run_unfold :
  report_and_run W args checkpoint_file metagraph_file image_size files
  = let p := print_parameters args checkpoint_file metagraph_file image_size files in
    let r := run_network W args checkpoint_file metagraph_file image_size files in
    (fst p ++ fst r
       ++ match snd r with
          | Ok _ => [Print [PStr "[i] All done."]]
          | Raise _ => []
          end,
     match snd r with Ok _ => Ok 0 | Raise e => Raise e end).
Proof.
  unfold report_and_run.
  set (r := run_network W args checkpoint_file metagraph_file image_size files).
  destruct r as [t [[]|e]]; cbn; rewrite ?app_nil_r; reflexivity.
Qed.

Lemma report_and_run_log (ev : event) :
  In ev (fst (report_and_run W args checkpoint_file metagraph_file
                image_size files)) ->
  is_info_line ev = true
  \/ ev = BuildModel metagraph_file checkpoint_file
  \/ In ev (fst (process W args g)).
Proof.
  rewrite report_and_run_unfold. cbv zeta. cbn [fst].
  rewrite run_network_unfold.
  intros Hin. apply in_app_or in Hin as [Hin|Hin].
  - left. destruct print_parameters_ok as [_ Hf].
    rewrite forallb_forall in Hf. auto.
  - destruct (Args.batch_size args =? 0); cbn [fst snd] in Hin.
    + simpl in Hin. intuition (subst; auto).
    + apply in_app_or in Hin as [Hin|Hin].
      * simpl in Hin. destruct Hin as [<-|[<-|Hin]]; auto.
      * destruct (snd (process W args g)); simpl in Hin;
          intuition (subst; auto).
Qed.

Lemma report_and_run_saves :
  saves_of (fst (report_and_run W args checkpoint_file metagraph_file
                   image_size files))
  = if Args.batch_size args =? 0 then []
    else saves_of (fst (process W args g)).
Proof.
  rewrite report_and_run_unfold. cbv zeta. cbn [fst].
  rewrite run_network_unfold.
  destruct (Args.batch_size args =? 0); [reflexivity|].
  cbn [fst snd]. rewrite !saves_of_app. cbn [saves_of].
  destruct (snd (process W args g)); simpl; now rewrite app_nil_r.
Qed.

Lemma report_and_run_result :
  snd (report_and_run W args checkpoint_file metagraph_file image_size files)
  = if Args.batch_size args =? 0
    then Raise (Exn ZeroDivisionError "division by zero")
    else match snd (process W args g) with
         | Ok _ => Ok 0
         | Raise e => Raise e
         end.
Proof.
  rewrite report_and_run_unfold. cbv zeta. cbn [snd].
  rewrite run_network_unfold.
  now destruct (Args.batch_size args =? 0).
Qed.

End ReportFacts.

(** ** [main] as a whole *)

Section MainFacts.

Variables (W : World) (args : Args.t).

Lemma log_run : log (run W args) = fst (main W args).
Proof. unfold run. now destruct (main W args) as [t [c|e]]. Qed.

Lemma traceback_run :
  traceback (run W args)
  = match snd (main W args) with Ok _ => None | Raise e => Some e end.
Proof. unfold run. now destruct (main W args) as [t [c|e]]. Qed.

Lemma exit_code_run :
  exit_code (run W args)
  = match snd (main W args) with Ok c => c | Raise _ => 1 end.
Proof. unfold run. now destruct (main W args) as [t [c|e]]. Qed.

Lemma resolve_files_filter :
  resolve_files W args
  = if Args.annotate args
    then filter (fun x => path_exists W x) (Args.files args)
    else [].
Proof.
  unfold resolve_files. destruct (Args.annotate args); [|reflexivity].
  now destruct (Args.files args).
Qed.

Lemma info_line_is_print (ev : event) :
  is_info_line ev = true -> exists items, ev = Print items.
Proof. destruct ev; simpl; try discriminate; eauto. Qed.

Lemma info_line_not_error (ev : event) :
  is_info_line ev = true -> is_error_line ev = false.
Proof.
  destruct ev as [items| | | |]; try reflexivity.
  destruct items as [|[s| |] rest]; try reflexivity.
  unfold is_info_line, is_error_line. intros H.
  destruct s as [|c1 s]; cbn [prefix] in *; [reflexivity|].
  destruct (ascii_dec "[" c1); [|reflexivity].
  destruct s as [|c2 s]; cbn [prefix] in *; [reflexivity|].
  destruct (ascii_dec "i" c2) as [<-|]; [|discriminate].
  destruct (ascii_dec "!" "i"); [discriminate|reflexivity].
Qed.

(** Whatever the environment, the log holds prints, at most one directory
    creation, the model construction and what the consumer loop logs. *)
Lemma main_log (ev : event) :
  In ev (fst (main W args)) ->
  (exists items, ev = Print items)
  \/ (exists d, ev = MakeDirs d)
  \/ (exists m c, ev = BuildModel m c)
  \/ (exists image_size,
        In ev (fst (process W args
                      (sample_generator (native_dims W) (resolve_files W args)
                         image_size (Args.batch_size args))))).
Proof.
  assert (Hrep : forall cf meta size,
    In ev (fst (report_and_run W args cf meta size (resolve_files W args))) ->
    (exists items, ev = Print items)
    \/ (exists d, ev = MakeDirs d)
    \/ (exists m c, ev = BuildModel m c)
    \/ (exists image_size,
          In ev (fst (process W args
                        (sample_generator (native_dims W) (resolve_files W args)
                           image_size (Args.batch_size args)))))).
  { intros cf meta size Hin.
    apply report_and_run_log in Hin as [Hi|[->|Hp]]; eauto 6.
    left. now apply info_line_is_print. }
  unfold main.
  destruct (checkpoint_state W (Args.name args)) as [paths|].
  2:{ simpl. intros [<-|[]]; eauto. }
  destruct (index paths (Args.checkpoint args)) as [cf|e].
  2:{ destruct (except [IndexError] e); simpl; tauto. }
  destruct (negb (path_exists W (cf ++ ".meta"))).
  { simpl. intros [<-|[]]; eauto. }
  destruct (load_training_data W args) as [size|e].
  2:{ destruct (except _ e); simpl; [intros [<-|[]]; eauto|tauto]. }
  destruct (Args.annotate args); [|apply Hrep].
  destruct (resolve_files W args) as [|f files] eqn:Hfiles.
  { simpl. intros [<-|[]]; eauto. }
  rewrite fst_bind.
  destruct (negb (path_exists W (Args.output_dir args))).
  - rewrite os_makedirs_log. intros [<-|Hin]; [eauto|].
    destruct (snd (os_makedirs W (Args.output_dir args))); [|destruct Hin].
    exact (Hrep _ _ _ Hin).
  - cbn [ret fst snd]. simpl app. exact (Hrep _ _ _).
Qed.

Lemma saves_of_none (t : list event) :
  (forall path v, ~ In (Save path v) t) -> saves_of t = [].
Proof.
  induction t as [|ev t IH]; intros H; [reflexivity|].
  destruct ev as [items|d|m c|x|p v]; simpl;
    try (apply IH; intros path v' Hin; apply (H path v'); now right).
  exfalso. apply (H p v). now left.
Qed.

Lemma main_saves_need_flags (path : string) (v : prediction) :
  In (Save path v) (fst (main W args)) ->
  Args.annotate args && Args.dump_prediction args = true.
Proof.
  intros Hin. apply main_log in Hin as [[? H]|[[? H]|[(? & ? & H)|[size Hin]]]];
    try discriminate.
  apply process_log in Hin as [[? H]|(? & ? & _ & Hf)]; [discriminate|exact Hf].
Qed.

End MainFacts.

(** ** Where a run stops *)

Section StopFacts.

Lemma forallb_false_at {A} (p : A -> bool) (l : list A) (j : nat) (a : A) :
  nth_error l j = Some a -> p a = false -> forallb p l = false.
Proof.
  intros Hj Ha. destruct (forallb p l) eqn:E; [|reflexivity].
  rewrite forallb_forall in E. apply nth_error_In in Hj.
  rewrite (E a Hj) in Ha. discriminate.
Qed.

Lemma nth_error_seq0 (n k : nat) : (k < n)%nat -> nth_error (seq 0 n) k = Some k.
Proof.
  intros Hk. rewrite (nth_error_nth' _ 0%nat) by (now rewrite length_seq).
  now rewrite seq_nth.
Qed.

(** The batch holding the first file that fails to decode is never
    yielded, nor any batch after it: the generator ends in OpenCV's error. *)
Lemma sample_generator_stops_at (dims : string -> option (Z * Z))
    (image_size : Size) (B : Z) (pre post : list string) (f : string) :
  0 < B -> decodable dims f = false ->
  let g := sample_generator dims (pre ++ f :: post) image_size B in
  (exists e, raised g = Some e /\ exn_cls e = CvError)
  /\ (List.length (yielded g) <= List.length pre / Z.to_nat B)%nat.
Proof.
  intros HB Hf. cbv zeta.
  rewrite sample_generator_positive by assumption.
  set (samples := pre ++ f :: post).
  set (b := Z.to_nat B). set (k := (List.length pre / b)%nat).
  assert (Hb : b <> 0%nat) by (subst b; lia).
  pose proof (Nat.div_mod_eq (List.length pre) b) as Hdm. fold k in Hdm.
  pose proof (Nat.mod_upper_bound (List.length pre) b Hb) as Hmod.
  pose proof (n_offsets_bounds (len samples) B (len_nonneg samples) HB) as [_ Hhi].
  assert (HN : len samples = Z.of_nat (List.length pre) + 1 + Z.of_nat (List.length post)).
  { unfold len, samples. rewrite length_app. simpl. lia. }
  assert (Hk : (k < n_offsets (len samples) B)%nat).
  { assert (Z.of_nat b = B) by (subst b; lia). nia. }
  assert (Hchunk : forallb (decodable dims)
                     (slice samples (Z.of_nat k * B) (Z.of_nat k * B + B)) = false).
  { rewrite slice_is_chunk by assumption.
    apply (forallb_false_at _ _ (List.length pre mod b) f); [|exact Hf].
    rewrite chunk_nth_error by exact Hmod. fold b.
    replace (k * b + List.length pre mod b)%nat with (List.length pre) by lia.
    unfold samples. rewrite nth_error_app2 by lia.
    now rewrite Nat.sub_diag. }
  destruct (generate_stops_at dims samples (w image_size, h image_size) B
              (map (fun i => Z.of_nat i * B) (seq 0 (n_offsets (len samples) B)))
              k (Z.of_nat k * B)) as [Hlen [e He]].
  - now rewrite nth_error_map, nth_error_seq0.
  - exact Hchunk.
  - split; [|exact Hlen]. exists e. split; [exact He|].
    eapply generate_raise; eauto.
Qed.

Variables (W : World) (args : Args.t).

Lemma runs_of_app (t1 t2 : list event) :
  runs_of (t1 ++ t2) = runs_of t1 ++ runs_of t2.
Proof.
  induction t1 as [|ev t1 IH]; [reflexivity|].
  destruct ev; simpl; rewrite IH; reflexivity.
Qed.

Lemma runs_of_Save (l : list (string * prediction)) :
  runs_of (map (fun pv => Save (fst pv) (snd pv)) l) = [].
Proof. induction l as [|pv l IH]; [reflexivity|exact IH]. Qed.

Lemma dump_step_result (names : list string) (boxes : list prediction) :
  saves_succeed W ->
  List.length boxes = List.length names ->
  snd (dump_step W args names boxes) = Ok tt.
Proof.
  intros Hsave Hlen.
  destruct (Args.annotate args && Args.dump_prediction args) eqn:Hflags.
  - now rewrite dump_step_on.
  - unfold dump_step. now rewrite Hflags.
Qed.

Lemma process_result (g : gen batch) :
  row_per_image W -> saves_succeed W ->
  Forall (fun b => List.length (snd b) = List.length (items (fst b))) (yielded g) ->
  snd (process W args g)
  = match raised g with None => Ok tt | Some e => Raise e end.
Proof.
  intros Hnet Hsave.
  induction g as [| e | [x names] k IH]; intros Hlen;
    [reflexivity | reflexivity | cbn [process yielded raised] in *].
  inversion Hlen as [|b bs Hb Hbs]; subst. simpl in Hb.
  rewrite bind_emit. cbn [snd]. rewrite snd_bind.
  rewrite dump_step_result by (rewrite ?Hnet; auto).
  auto.
Qed.

Lemma process_runs (g : gen batch) :
  (List.length (runs_of (fst (process W args g))) <= List.length (yielded g))%nat.
Proof.
  induction g as [| e | [x names] k IH]; [simpl; lia | simpl; lia |].
  cbn [process yielded]. rewrite bind_emit. cbn [fst runs_of].
  rewrite fst_bind, runs_of_app.
  destruct (dump_step_log W args names (sess_run W x)) as (l & -> & _).
  rewrite runs_of_Save.
  destruct (snd (dump_step W args names (sess_run W x))); simpl; lia.
Qed.

Lemma report_and_run_runs (checkpoint_file metagraph_file : string)
    (image_size : Size) (files : list string) :
  (List.length (runs_of (fst (report_and_run W args checkpoint_file
                                metagraph_file image_size files)))
   <= List.length (yielded (sample_generator (native_dims W) files image_size
                              (Args.batch_size args))))%nat.
Proof.
  rewrite report_and_run_unfold. cbv zeta. cbn [fst].
  rewrite run_network_unfold.
  destruct (Args.batch_size args =? 0); [simpl; lia|].
  cbn [fst snd]. rewrite !runs_of_app. cbn [runs_of].
  rewrite !length_app.
  pose proof (process_runs (sample_generator (native_dims W) files image_size
                              (Args.batch_size args))) as Hp.
  destruct (snd (process W args _)); simpl; lia.
Qed.

(** Every batch of [sample_generator] has as many names as images. *)
Lemma sample_generator_names_length (dims : string -> option (Z * Z))
    (samples : list string) (image_size : Size) (B : Z) :
  Forall (fun b => List.length (snd b) = List.length (items (fst b)))
    (yielded (sample_generator dims samples image_size B)).
Proof.
  apply Forall_forall. intros b Hb. apply In_nth_error in Hb as [k Hk].
  apply sample_generator_nth in Hk as (_ & _ & -> & _).
  unfold batch_of. simpl. now rewrite items_np_array, !length_map.
Qed.

End StopFacts.

(** ** What is dumped *)

Section DumpFacts.

Lemma map_fst_combine_same {A B} (l : list A) (l' : list B) :
  List.length l = List.length l' -> map fst (combine l l') = l.
Proof.
  revert l'. induction l as [|a l IH]; intros [|b l'] H; simpl in *;
    try discriminate; [reflexivity|].
  f_equal. apply IH. lia.
Qed.

Lemma expected_saves_paths (W : World) (args : Args.t) (bs : list batch) :
  row_per_image W ->
  Forall (fun b => List.length (snd b) = List.length (items (fst b))) bs ->
  map fst (expected_saves W args bs)
  = map (dump_path args) (List.concat (map snd bs)).
Proof.
  intros Hnet Hlen. induction Hlen as [|b bs Hb _ IH]; [reflexivity|].
  simpl. rewrite !map_app, IH. f_equal.
  apply map_fst_combine_same. now rewrite length_map, Hnet.
Qed.

(** On a run where every sample decodes, the names of the batches, put end
    to end, are the base names of the samples in order. *)
Lemma sample_generator_all_names (dims : string -> option (Z * Z))
    (samples : list string) (image_size : Size) (B : Z) :
  0 < B -> 0 < w image_size -> 0 < h image_size ->
  forallb (decodable dims) samples = true ->
  List.concat (map snd (yielded (sample_generator dims samples image_size B)))
  = map basename samples.
Proof.
  intros HB Hw Hh Hall.
  destruct (sample_generator_total dims samples image_size B HB Hw Hh Hall)
    as [-> _].
  rewrite map_map. cbn [batch_of snd].
  rewrite <- (map_map (chunk B samples) (map basename)), <- concat_map.
  rewrite concat_chunks, firstn_all2; [reflexivity|].
  pose proof (n_offsets_bounds (len samples) B (len_nonneg samples) HB) as [_ Hhi].
  unfold len in *. nia.
Qed.

Lemma written_in (saves : list (string * prediction)) (path : string)
    (v : prediction) :
  written saves path = Some v -> In path (map fst saves).
Proof.
  induction saves as [|[p v0] rest IH]; simpl; [discriminate|].
  destruct (written rest path) as [v'|].
  - intros [= ->]. right. now apply IH.
  - destruct (String.eqb_spec p path) as [->|]; [now left|discriminate].
Qed.

(** With pairwise distinct paths every save is what its path holds at the
    end. *)
Lemma written_distinct (saves : list (string * prediction)) :
  NoDup (map fst saves) ->
  forall path v, In (path, v) saves -> written saves path = Some v.
Proof.
  induction saves as [|[p v0] rest IH]; intros Hnd path v Hin; [destruct Hin|].
  simpl in Hnd. inversion Hnd as [|? ? Hp Hrest]; subst.
  simpl. destruct Hin as [[= -> ->]|Hin].
  - destruct (written rest path) as [v'|] eqn:E.
    + apply written_in in E. contradiction.
    + now rewrite String.eqb_refl.
  - now rewrite (IH Hrest path v Hin).
Qed.

Lemma combine_app_same {A B} (a a' : list A) (b b' : list B) :
  List.length a = List.length b ->
  combine (a ++ a') (b ++ b') = combine a b ++ combine a' b'.
Proof.
  revert b. induction a as [|x a IH]; intros [|y b] H; simpl in *;
    try discriminate; [reflexivity|].
  f_equal. apply IH. lia.
Qed.

Lemma expected_saves_combine (W : World) (args : Args.t) (bs : list batch) :
  row_per_image W ->
  Forall (fun b => List.length (snd b) = List.length (items (fst b))) bs ->
  expected_saves W args bs
  = combine (map (dump_path args) (List.concat (map snd bs))) (rows_of W bs).
Proof.
  intros Hnet Hlen. induction Hlen as [|b bs Hb _ IH]; [reflexivity|].
  unfold expected_saves, rows_of in *. simpl.
  rewrite map_app, combine_app_same by (now rewrite length_map, Hnet).
  now rewrite IH.
Qed.

Lemma nth_error_combine {A B} (a : list A) (b : list B) (i : nat) (x : A)
    (y : B) :
  nth_error a i = Some x -> nth_error b i = Some y ->
  nth_error (combine a b) i = Some (x, y).
Proof.
  revert a b. induction i as [|i IH]; intros [|x' a] [|y' b] Ha Hb;
    simpl in *; try discriminate.
  - now injection Ha as ->; injection Hb as ->.
  - now apply IH.
Qed.

Lemma nodup_length_le {A} (dec : forall x y : A, {x = y} + {x <> y})
    (l : list A) :
  (List.length (nodup dec l) <= List.length l)%nat.
Proof.
  induction l as [|a l IH]; [reflexivity|]. simpl.
  destruct (in_dec dec a l); simpl; lia.
Qed.

Lemma nodup_length_NoDup {A} (dec : forall x y : A, {x = y} + {x <> y})
    (l : list A) :
  List.length (nodup dec l) = List.length l -> NoDup l.
Proof.
  induction l as [|a l IH]; [constructor|]. simpl.
  pose proof (nodup_length_le dec l) as Hle.
  destruct (in_dec dec a l) as [Hin|Hnin]; simpl; intros Hlen; [lia|].
  constructor; [exact Hnin|]. apply IH. lia.
Qed.

End DumpFacts.

(** ** Past the checks of lines 76-103 *)

Section PastPreflight.

Variables (W : World) (args : Args.t).
Variables (paths : list string) (checkpoint_file : string) (image_size : Size).

Hypothesis Hstate : checkpoint_state W (Args.name args) = Some paths.
Hypothesis Hindex : index paths (Args.checkpoint args) = Ok checkpoint_file.
Hypothesis Hmeta : path_exists W (checkpoint_file ++ ".meta") = true.
Hypothesis Hload : load_training_data W args = Ok image_size.

Local Abbreviation metagraph_file := (checkpoint_file ++ ".meta")%string.
Local Abbreviation existing :=
  (filter (fun x => path_exists W x) (Args.files args)).

Lemma main_past_preflight :
  main W args
  = if Args.annotate args then
      match resolve_files W args with
      | [] => ([Print [PStr "[!] No files specified"]], Ok 1)
      | _ =>
          (if negb (path_exists W (Args.output_dir args))
           then os_makedirs W (Args.output_dir args) else ret tt) ;;
          report_and_run W args checkpoint_file metagraph_file image_size
            (resolve_files W args)
      end
    else report_and_run W args checkpoint_file metagraph_file image_size
           (resolve_files W args).
Proof.
  unfold main. rewrite Hstate, Hindex, Hmeta, Hload. cbn [negb].
  destruct (Args.annotate args); [|reflexivity].
  now destruct (resolve_files W args).
Qed.

(** The log and result of [main] when some file is left to process:
    either creating the output directory raises and ends the run there, or
    the run goes on to the report. *)
Lemma main_with_files :
  resolve_files W args <> [] ->
  (exists e,
     makedirs_error W (Args.output_dir args) = Some e
     /\ main W args = ([MakeDirs (Args.output_dir args)], Raise e))
  \/ (exists pre,
        (pre = [] \/ pre = [MakeDirs (Args.output_dir args)])
        /\ fst (main W args)
           = pre ++ fst (report_and_run W args checkpoint_file metagraph_file
                           image_size (resolve_files W args))
        /\ snd (main W args)
           = snd (report_and_run W args checkpoint_file metagraph_file
                    image_size (resolve_files W args))).
Proof.
  intros Hne. rewrite main_past_preflight.
  destruct (Args.annotate args) eqn:Ha.
  - destruct (resolve_files W args) as [|f fs] eqn:Hf; [congruence|].
    destruct (negb (path_exists W (Args.output_dir args))).
    + rewrite (os_makedirs_cases W (Args.output_dir args)).
      destruct (makedirs_error W (Args.output_dir args)) as [e|] eqn:He.
      * left. exists e. split; reflexivity.
      * right. exists [MakeDirs (Args.output_dir args)].
        destruct (report_and_run _ _ _ _ _ _). simpl. auto.
    + right. exists []. destruct (report_and_run _ _ _ _ _ _). simpl. auto.
  - right. exists []. auto.
Qed.

(** C8. With [--annotate] true and no positional file that exists on disk
    (none given, or none found), the run consists of the single line
    [[!] No files specified] and the return code 1: nothing is printed
    before it, the output directory is not created, and the model is
    neither built nor run. *)
Theorem annotate_without_existing_files :
  Args.annotate args = true ->
  Forall (fun x => path_exists W x = false) (Args.files args) ->
  run W args = MkProcess [Print [PStr "[!] No files specified"]] 1 None
  /\ existsb is_model_work (log (run W args)) = false.
Proof.
  intros Ha Hnone.
  assert (Hempty : resolve_files W args = []).
  { rewrite resolve_files_filter, Ha.
    induction Hnone as [|x l Hx _ IH]; [reflexivity|].
    simpl. now rewrite Hx. }
  assert (Hrun : run W args
                 = MkProcess [Print [PStr "[!] No files specified"]] 1 None).
  { unfold run. now rewrite main_past_preflight, Ha, Hempty. }
  rewrite Hrun. split; reflexivity.
Qed.

(** C9. Positional paths that do not exist are dropped without a trace:
    the list that is processed is the positional list filtered by
    existence when [--annotate] is true and the empty list otherwise (the
    positional files are then not looked at); with a non-empty filtered
    list the run goes on with exactly that list; and an error line is
    logged exactly when annotating with an empty filtered list. *)
Theorem missing_files_silently_dropped :
  resolve_files W args = (if Args.annotate args then existing else [])
  /\ (Args.annotate args = false ->
      main W args
      = report_and_run W args checkpoint_file metagraph_file image_size [])
  /\ (Args.annotate args = true -> existing <> [] ->
      main W args
      = ((if negb (path_exists W (Args.output_dir args))
          then os_makedirs W (Args.output_dir args) else ret tt) ;;
         report_and_run W args checkpoint_file metagraph_file image_size
           existing))
  /\ (existsb is_error_line (log (run W args)) = true
      <-> Args.annotate args = true /\ existing = []).
Proof.
  pose proof (resolve_files_filter W args) as Hres. fold existing in Hres.
  split; [exact Hres|].
  split.
  { intros Ha. rewrite main_past_preflight, Hres, Ha. reflexivity. }
  split.
  { intros Ha Hne. rewrite main_past_preflight, Hres, Ha.
    destruct existing; [congruence|reflexivity]. }
  rewrite log_run. split.
  - intros Herr. apply existsb_exists in Herr as (ev & Hin & Hev).
    destruct (Args.annotate args) eqn:Ha.
    + destruct existing as [|f fs] eqn:He; [auto|]. exfalso.
      destruct main_with_files as [(e & _ & Hm)|(pre & Hpre & Hlog & _)].
      { rewrite Hres. discriminate. }
      { rewrite Hm in Hin. destruct Hin as [<-|[]]. discriminate. }
      rewrite Hlog in Hin. apply in_app_or in Hin as [Hin|Hin].
      * destruct Hpre as [->| ->]; simpl in Hin; [tauto|].
        destruct Hin as [<-|[]]. discriminate.
      * apply report_and_run_log in Hin as [Hi|[->|Hp]].
        -- apply info_line_not_error in Hi. congruence.
        -- discriminate.
        -- apply process_log in Hp as [[x ->]|(p & v & -> & _)]; discriminate.
    + exfalso. rewrite main_past_preflight, Ha in Hin.
      apply report_and_run_log in Hin as [Hi|[->|Hp]].
      * apply info_line_not_error in Hi. congruence.
      * discriminate.
      * apply process_log in Hp as [[x ->]|(p & v & -> & _)]; discriminate.
  - intros [Ha He]. rewrite main_past_preflight, Hres, Ha, He. reflexivity.
Qed.

(** C7. A file that fails to decode is not skipped and not retried: with
    a positive batch size, if some file of the processed list does not
    decode, the generator ends in OpenCV's error without yielding the batch
    that holds the file or any later batch, and the error leaves [main]
    uncaught: the process ends with a traceback and status 1, having run
    the network on no more than the batches before the failing one. When
    nothing else fails before (the network returns one row per image, and
    neither [os.makedirs] nor [np.save] raises) the traceback is that of
    the generator's own error. *)
Theorem decode_failure_aborts_run (pre post : list string) (f : string) :
  0 < Args.batch_size args ->
  resolve_files W args = pre ++ f :: post ->
  decodable (native_dims W) f = false ->
  let g := sample_generator (native_dims W) (resolve_files W args)
             image_size (Args.batch_size args) in
  let before := (List.length pre / Z.to_nat (Args.batch_size args))%nat in
  (exists e, raised g = Some e /\ exn_cls e = CvError)
  /\ (List.length (yielded g) <= before)%nat
  /\ (exists e, traceback (run W args) = Some e)
  /\ exit_code (run W args) = 1
  /\ (List.length (runs_of (log (run W args))) <= before)%nat
  /\ (row_per_image W -> saves_succeed W -> makedirs_succeeds W args ->
      exists e, raised g = Some e /\ exn_cls e = CvError
                /\ traceback (run W args) = Some e).
Proof.
  intros HB Hfiles Hf. cbv zeta.
  set (g := sample_generator (native_dims W) (resolve_files W args)
              image_size (Args.batch_size args)).
  destruct (sample_generator_stops_at (native_dims W) image_size
              (Args.batch_size args) pre post f HB Hf) as [(e & He & Hcls) Hlen].
  rewrite <- Hfiles in He, Hlen. fold g in He, Hlen.
  destruct main_with_files as [(e0 & He0 & Hm)|(pre' & Hpre & Hlog & Hres)].
  { rewrite Hfiles. now destruct pre. }
  { split; [eauto|]. split; [exact Hlen|].
    rewrite traceback_run, exit_code_run, log_run, Hm. cbn [fst snd runs_of].
    split; [eauto|]. split; [reflexivity|]. split; [simpl; lia|].
    intros _ _ Hmk. unfold makedirs_succeeds in Hmk. congruence. }
  rewrite report_and_run_result in Hres. fold g in Hres.
  destruct (Z.eqb_spec (Args.batch_size args) 0) as [H0|_]; [lia|].
  destruct (process_raised W args g e He) as [e' He'].
  rewrite He' in Hres.
  split; [eauto|]. split; [exact Hlen|].
  split; [exists e'; now rewrite traceback_run, Hres|].
  split; [now rewrite exit_code_run, Hres|].
  split.
  { rewrite log_run, Hlog, runs_of_app.
    pose proof (report_and_run_runs W args checkpoint_file metagraph_file
                  image_size (resolve_files W args)) as Hruns.
    fold g in Hruns.
    destruct Hpre as [->| ->]; simpl; lia. }
  intros Hnet Hsave _. exists e. split; [exact He|]. split; [exact Hcls|].
  rewrite traceback_run, Hres.
  rewrite (process_result W args g Hnet Hsave) in He'
    by apply sample_generator_names_length.
  rewrite He in He'. congruence.
Qed.

(** With both flags set, a positive batch size, files that all decode, a
    network returning one row per image and no failing [os.makedirs] or
    [np.save], the saves of the run are those of the yielded batches, one
    per processed file and in the order of the files. *)
Lemma dump_past_preflight :
  Args.annotate args = true -> Args.dump_prediction args = true ->
  0 < Args.batch_size args -> 0 < w image_size -> 0 < h image_size ->
  forallb (decodable (native_dims W)) (resolve_files W args) = true ->
  row_per_image W -> saves_succeed W -> makedirs_succeeds W args ->
  let g := sample_generator (native_dims W) (resolve_files W args)
             image_size (Args.batch_size args) in
  saves_of (log (run W args)) = expected_saves W args (yielded g)
  /\ map fst (saves_of (log (run W args)))
     = map (fun f => dump_path args (basename f)) (resolve_files W args).
Proof.
  intros Ha Hd HB Hw Hh Hall Hnet Hsave Hmk. cbv zeta.
  set (g := sample_generator (native_dims W) (resolve_files W args)
              image_size (Args.batch_size args)).
  assert (Hpaths : map fst (expected_saves W args (yielded g))
                   = map (fun f => dump_path args (basename f))
                       (resolve_files W args)).
  { rewrite (expected_saves_paths W args (yielded g) Hnet
               (sample_generator_names_length _ _ _ _)).
    unfold g. rewrite sample_generator_all_names by assumption.
    now rewrite map_map. }
  assert (Hsaves : saves_of (log (run W args))
                   = expected_saves W args (yielded g)).
  { rewrite log_run.
    destruct (resolve_files W args) as [|f fs] eqn:Hfiles.
    - rewrite main_past_preflight, Ha, Hfiles. subst g.
      destruct (sample_generator_total (native_dims W) [] image_size
                  (Args.batch_size args) HB Hw Hh eq_refl) as [-> _].
      unfold n_offsets, len. simpl List.length.
      rewrite Z.div_small by lia. reflexivity.
    - destruct main_with_files as [(e0 & He0 & _)|(pre' & Hpre & Hlog & _)].
      { rewrite Hfiles. discriminate. }
      { unfold makedirs_succeeds in Hmk. congruence. }
      rewrite Hlog, saves_of_app, Hfiles, report_and_run_saves.
      destruct (Z.eqb_spec (Args.batch_size args) 0) as [H0|_]; [lia|].
      destruct (process_saves W args g) as [Hs _].
      + now rewrite Ha, Hd.
      + exact Hnet.
      + exact Hsave.
      + apply sample_generator_names_length.
      + fold g. rewrite Hs. now destruct Hpre as [->| ->]. }
  split; [exact Hsaves|]. now rewrite Hsaves.
Qed.

End PastPreflight.

(** ** Checkpoint selection and training data *)

Section Checks.

Variables (W : World) (args : Args.t).

Lemma index_out_of_range {A} (l : list A) (i : Z) :
  len l <= i \/ i < - len l ->
  index l i = Raise (Exn IndexError "list index out of range").
Proof.
  intros H. unfold index. pose proof (len_nonneg l).
  destruct (Z.ltb_spec i 0).
  - destruct (Z.leb_spec 0 (i + len l)); [|reflexivity].
    destruct (Z.ltb_spec (i + len l) (len l)); [|reflexivity]. lia.
  - destruct (Z.leb_spec 0 i); [|lia].
    destruct (Z.ltb_spec i (len l)); [lia|reflexivity].
Qed.

(** C2, as the code has it. With a checkpoint state present and an index
    outside the available checkpoints, the [IndexError] handler reads
    [args.checkpoint_file], which the parser never defines: nothing is
    printed, no [[!]] line names the checkpoint, and the process ends with
    the traceback of an [AttributeError] (status 1), not with a report. *)
Theorem checkpoint_out_of_range_escapes (paths : list string) :
  checkpoint_state W (Args.name args) = Some paths ->
  len paths <= Args.checkpoint args \/ Args.checkpoint args < - len paths ->
  run W args
  = MkProcess [] 1
      (Some (Exn AttributeError
               "'Namespace' object has no attribute 'checkpoint_file'"))
  /\ existsb is_error_line (log (run W args)) = false.
Proof.
  intros Hstate Hrange.
  assert (Hrun : run W args
    = MkProcess [] 1
        (Some (Exn AttributeError
                 "'Namespace' object has no attribute 'checkpoint_file'"))).
  { unfold run, main. rewrite Hstate, index_out_of_range by assumption.
    reflexivity. }
  rewrite Hrun. split; reflexivity.
Qed.

(** The exceptions the body of the [try] at lines 97-100 lets out. *)
Lemma load_training_data_raises (e : exn) :
  load_training_data W args = Raise e ->
  open_rb W (Args.training_data args) = Raise e
  \/ (exists f, open_rb W (Args.training_data args) = Ok f
        /\ (pickle_load W f = Raise e
            \/ exists data, pickle_load W f = Ok data
                 /\ (getitem data "preset" = Raise e
                     \/ exists preset, getitem data "preset" = Ok preset
                          /\ get_image_size preset = Raise e))).
Proof.
  unfold load_training_data, rbind.
  destruct (open_rb W (Args.training_data args)) as [f|e0];
    [|intros [= ->]; now left].
  intros H. right. exists f. split; [reflexivity|].
  destruct (pickle_load W f) as [data|e1]; [|injection H as ->; now left].
  right. exists data. split; [reflexivity|].
  destruct (getitem data "preset") as [preset|e2]; [|injection H as ->; now left].
  right. exists preset. auto.
Qed.

(** C3, amended. Past the checkpoint checks, an error raised while loading
    the training data that is a [FileNotFoundError], an [IOError] (any
    [OSError]) or a [KeyError] is caught: the run logs the single line
    [[!] Unable to load training data: <error>] and returns 1. Any other
    error raised there is not caught and ends the process with its
    traceback and nothing logged. A missing file and a missing [preset]
    key are of the first kind. *)
Theorem training_data_errors (paths : list string) (checkpoint_file : string)
    (e : exn) :
  checkpoint_state W (Args.name args) = Some paths ->
  index paths (Args.checkpoint args) = Ok checkpoint_file ->
  path_exists W (checkpoint_file ++ ".meta") = true ->
  load_training_data W args = Raise e ->
  (except [FileNotFoundError; IOError; KeyError] e = true ->
     run W args
     = MkProcess [Print [PStr "[!] Unable to load training data:";
                         PStr (exn_str e)]] 1 None
     /\ load_failure_reported W args)
  /\ (except [FileNotFoundError; IOError; KeyError] e = false ->
     run W args = MkProcess [] 1 (Some e))
  /\ (open_rb W (Args.training_data args) = Raise e ->
      subclass (exn_cls e) OSError = true ->
      load_failure_reported W args)
  /\ (forall f entries,
        open_rb W (Args.training_data args) = Ok f ->
        pickle_load W f = Ok (PyDict entries) ->
        lookup entries "preset" = None ->
        load_failure_reported W args).
Proof.
  intros Hstate Hindex Hmeta Hload.
  assert (Hcaught : except [FileNotFoundError; IOError; KeyError] e = true ->
     run W args
     = MkProcess [Print [PStr "[!] Unable to load training data:";
                         PStr (exn_str e)]] 1 None
     /\ load_failure_reported W args).
  { intros Hex.
    assert (Hrun : run W args
       = MkProcess [Print [PStr "[!] Unable to load training data:";
                           PStr (exn_str e)]] 1 None).
    { unfold run, main. rewrite Hstate, Hindex, Hmeta, Hload, Hex. reflexivity. }
    split; [exact Hrun|]. unfold load_failure_reported. rewrite Hrun.
    eexists. repeat split. }
  split; [exact Hcaught|]. split.
  { intros Hex. unfold run, main.
    rewrite Hstate, Hindex, Hmeta, Hload, Hex. reflexivity. }
  split.
  { intros _ Hos. apply Hcaught. unfold except. simpl.
    destruct (exn_cls e); simpl in *; congruence. }
  intros f entries Hopen Hpickle Hlookup. apply Hcaught.
  unfold load_training_data, rbind in Hload.
  rewrite Hopen, Hpickle in Hload. simpl in Hload. rewrite Hlookup in Hload.
  injection Hload as <-. reflexivity.
Qed.

End Checks.

(** ** Dumping the predictions *)

(** C6, amended. A prediction is saved only when both [--annotate] and
    [--dump-prediction] are true: with either flag false no run calls
    [np.save]. With both true, past the checks of lines 76-103, with a
    positive batch size, files that decode, a network returning one row
    per image and no failing [os.makedirs] or [np.save], [np.save] is
    called exactly once per processed file, in the order of the files, at
    [<output-dir>/<base name>.npy] and with that file's row of the
    network's output. The output directory then holds one file per
    sample, each with its sample's row, exactly when those paths are
    pairwise distinct: samples that share a base name are saved to the
    same path. *)
Theorem prediction_dump_iff_flags (W : World) (args : Args.t) :
  (Args.annotate args && Args.dump_prediction args = false ->
   saves_of (log (run W args)) = [])
  /\ (forall path v, In (path, v) (saves_of (log (run W args))) ->
      Args.annotate args = true /\ Args.dump_prediction args = true)
  /\ (forall paths checkpoint_file image_size,
      checkpoint_state W (Args.name args) = Some paths ->
      index paths (Args.checkpoint args) = Ok checkpoint_file ->
      path_exists W (checkpoint_file ++ ".meta") = true ->
      load_training_data W args = Ok image_size ->
      Args.annotate args = true -> Args.dump_prediction args = true ->
      0 < Args.batch_size args -> 0 < w image_size -> 0 < h image_size ->
      forallb (decodable (native_dims W)) (resolve_files W args) = true ->
      row_per_image W -> saves_succeed W -> makedirs_succeeds W args ->
      let files := resolve_files W args in
      let g := sample_generator (native_dims W) files image_size
                 (Args.batch_size args) in
      let target := fun f => dump_path args (basename f) in
      saves_of (log (run W args)) = expected_saves W args (yielded g)
      /\ saves_of (log (run W args))
         = combine (map target files) (rows_of W (yielded g))
      /\ map fst (saves_of (log (run W args))) = map target files
      /\ List.length (saves_of (log (run W args))) = List.length files
      /\ (one_file_per_sample W args image_size
          <-> NoDup (map target files))).
Proof.
  assert (Hflags : forall path v,
            In (Save path v) (log (run W args)) ->
            Args.annotate args && Args.dump_prediction args = true).
  { intros path v. rewrite log_run. apply main_saves_need_flags. }
  assert (Hin : forall t path v, In (path, v) (saves_of t) -> In (Save path v) t).
  { induction t as [|ev t IH]; intros path v H; [destruct H|].
    destruct ev; simpl in H; try (right; now apply IH).
    destruct H as [[= <- <-]|H]; [now left|right; now apply IH]. }
  split.
  { intros Hoff. apply saves_of_none. intros path v H.
    apply Hflags in H. congruence. }
  split.
  { intros path v H. apply Hin, Hflags in H. now apply andb_prop in H. }
  intros paths checkpoint_file image_size Hstate Hindex Hmeta Hload
    Ha Hd HB Hw Hh Hall Hnet Hsave Hmk.
  destruct (dump_past_preflight W args paths checkpoint_file image_size
              Hstate Hindex Hmeta Hload Ha Hd HB Hw Hh Hall Hnet Hsave Hmk)
    as [Hs Hp].
  cbv zeta.
  set (g := sample_generator (native_dims W) (resolve_files W args)
              image_size (Args.batch_size args)) in *.
  assert (Hc : saves_of (log (run W args))
               = combine (map (fun f => dump_path args (basename f))
                            (resolve_files W args))
                         (rows_of W (yielded g))).
  { rewrite Hs.
    rewrite (expected_saves_combine W args (yielded g) Hnet
               (sample_generator_names_length _ _ _ _)).
    unfold g. rewrite sample_generator_all_names by assumption.
    now rewrite map_map. }
  split; [exact Hs|]. split; [exact Hc|]. split; [exact Hp|]. split.
  { rewrite <- (length_map fst), Hp. now rewrite length_map. }
  unfold one_file_per_sample. cbv zeta. fold g. rewrite Hp. split.
  - intros [Hcount _]. apply (nodup_length_NoDup string_dec).
    now rewrite Hcount, length_map.
  - intros Hnd. split.
    + now rewrite (nodup_fixed_point string_dec Hnd), length_map.
    + intros i f v Hf Hv. apply written_distinct; [now rewrite Hp|].
      rewrite Hc. apply (nth_error_In _ i).
      apply nth_error_combine; [|exact Hv].
      now rewrite nth_error_map, Hf.
Qed.

(** ** The statements at the concrete environment *)

Lemma example_row_per_image : row_per_image example_world.
Proof. intros x. unfold example_world, example_net. simpl. apply length_map. Defined.

(** C2 at [--checkpoint 5] with three checkpoints. *)
Lemma checkpoint_out_of_range_escapes_witness :
  let args := example_args [] 5 false false 32 in
  run example_world args
  = MkProcess [] 1
      (Some (Exn AttributeError
               "'Namespace' object has no attribute 'checkpoint_file'"))
  /\ existsb is_error_line (log (run example_world args)) = false.
Proof.
  apply (checkpoint_out_of_range_escapes example_world
           (example_args [] 5 false false 32)
           ["test/e10.ckpt"; "test/e20.ckpt"; "test/final.ckpt"]).
  - reflexivity.
  - left. unfold len. simpl. lia.
Defined.

(** C3 as stated fails: a training-data file that opens but does not
    unpickle raises [UnpicklingError], which the handler does not list; no
    line is logged and the process ends with the traceback. *)
Lemma undeserializable_training_data_not_reported :
  let args := example_args [] (-1) false false 32 in
  load_training_data corrupt_world args
    = Raise (Exn UnpicklingError "invalid load key, 'x'.")
  /\ run corrupt_world args
     = MkProcess [] 1 (Some (Exn UnpicklingError "invalid load key, 'x'."))
  /\ ~ load_failure_reported corrupt_world args.
Proof.
  cbv zeta. split; [reflexivity|]. split; [reflexivity|].
  intros (line & Hlog & _). discriminate Hlog.
Qed.

(** C3, amended, at a training-data path that does not exist. *)
Lemma training_data_errors_witness :
  let args := Args.Make [] "test" (-1) "nowhere/training-data.pkl"
                "test-output" false false 32 in
  run example_world args
  = MkProcess
      [Print [PStr "[!] Unable to load training data:";
              PStr "[Errno 2] No such file or directory: 'nowhere/training-data.pkl'"]]
      1 None
  /\ load_failure_reported example_world args.
Proof.
  apply (training_data_errors example_world
           (Args.Make [] "test" (-1) "nowhere/training-data.pkl"
              "test-output" false false 32)
           ["test/e10.ckpt"; "test/e20.ckpt"; "test/final.ckpt"]
           "test/final.ckpt"
           (Exn FileNotFoundError
              "[Errno 2] No such file or directory: 'nowhere/training-data.pkl'"));
    reflexivity.
Defined.

(** C6 as stated fails: two samples with the same base name are saved to
    the same path, so the run leaves one file for two samples and the file
    does not hold the first sample's row, although both flags are set,
    every file decodes and nothing raises. *)
Lemma same_base_name_one_file :
  let args := example_args ["in/a.jpg"; "alt/a.jpg"] (-1) true true 2 in
  Args.annotate args = true /\ Args.dump_prediction args = true
  /\ resolve_files example_world args = ["in/a.jpg"; "alt/a.jpg"]
  /\ run example_world args
     = MkProcess (log (run example_world args)) 0 None
  /\ saves_of (log (run example_world args))
     = [("test-output/a.jpg.npy", Prediction 8);
        ("test-output/a.jpg.npy", Prediction 9)]
  /\ nth_error
       (rows_of example_world
          (yielded (sample_generator example_dims ["in/a.jpg"; "alt/a.jpg"]
                      (MkSize 300 300) 2))) 0
     = Some (Prediction 8)
  /\ written (saves_of (log (run example_world args))) "test-output/a.jpg.npy"
     = Some (Prediction 9)
  /\ ~ one_file_per_sample example_world args (MkSize 300 300).
Proof.
  cbv zeta. repeat (split; [reflexivity|]).
  intros [Hcount _]. vm_compute in Hcount. discriminate Hcount.
Qed.

Lemma example_saves_succeed : saves_succeed example_world.
Proof. intros path. reflexivity. Defined.

(** C6, amended, at four positional paths, one of them missing, in batches
    of two. *)
Lemma prediction_dump_iff_flags_witness :
  let args := example_args ["in/a.jpg"; "missing.jpg"; "in/b.jpg"; "c.jpg"]
                (-1) true true 2 in
  let g := sample_generator example_dims example_samples (MkSize 300 300) 2 in
  let target := fun f => dump_path args (basename f) in
  saves_of (log (run example_world args))
    = expected_saves example_world args (yielded g)
  /\ saves_of (log (run example_world args))
     = combine (map target example_samples) (rows_of example_world (yielded g))
  /\ map fst (saves_of (log (run example_world args)))
     = ["test-output/a.jpg.npy"; "test-output/b.jpg.npy";
        "test-output/c.jpg.npy"]
  /\ List.length (saves_of (log (run example_world args))) = 3%nat
  /\ (one_file_per_sample example_world args (MkSize 300 300)
      <-> NoDup ["test-output/a.jpg.npy"; "test-output/b.jpg.npy";
                 "test-output/c.jpg.npy"]).
Proof.
  apply (proj2 (proj2 (prediction_dump_iff_flags example_world
           (example_args ["in/a.jpg"; "missing.jpg"; "in/b.jpg"; "c.jpg"]
              (-1) true true 2)))
           ["test/e10.ckpt"; "test/e20.ckpt"; "test/final.ckpt"]
           "test/final.ckpt" (MkSize 300 300)
           eq_refl eq_refl eq_refl eq_refl eq_refl eq_refl
           eq_refl eq_refl eq_refl eq_refl
           example_row_per_image example_saves_succeed eq_refl).
Defined.

(** C7 at a list whose third file exists but does not decode. *)
Lemma decode_failure_aborts_run_witness :
  let args := example_args ["in/a.jpg"; "in/b.jpg"; "in/broken.jpg"; "c.jpg"]
                (-1) true true 2 in
  let g := sample_generator example_dims
             ["in/a.jpg"; "in/b.jpg"; "in/broken.jpg"; "c.jpg"]
             (MkSize 300 300) 2 in
  (exists e, raised g = Some e /\ exn_cls e = CvError)
  /\ (List.length (yielded g) <= 1)%nat
  /\ (exists e, traceback (run example_world args) = Some e)
  /\ exit_code (run example_world args) = 1
  /\ (List.length (runs_of (log (run example_world args))) <= 1)%nat
  /\ (row_per_image example_world -> saves_succeed example_world ->
      makedirs_succeeds example_world args ->
      exists e, raised g = Some e /\ exn_cls e = CvError
                /\ traceback (run example_world args) = Some e).
Proof.
  apply (decode_failure_aborts_run example_world
           (example_args ["in/a.jpg"; "in/b.jpg"; "in/broken.jpg"; "c.jpg"]
              (-1) true true 2)
           ["test/e10.ckpt"; "test/e20.ckpt"; "test/final.ckpt"]
           "test/final.ckpt" (MkSize 300 300)
           eq_refl eq_refl eq_refl eq_refl
           ["in/a.jpg"; "in/b.jpg"] ["c.jpg"] "in/broken.jpg");
    [simpl; lia | reflexivity | reflexivity].
Defined.

(** C8 at a single positional path that does not exist. *)
Lemma annotate_without_existing_files_witness :
  let args := example_args ["missing.jpg"] (-1) true false 32 in
  run example_world args
  = MkProcess [Print [PStr "[!] No files specified"]] 1 None
  /\ existsb is_model_work (log (run example_world args)) = false.
Proof.
  apply (annotate_without_existing_files example_world
           (example_args ["missing.jpg"] (-1) true false 32)
           ["test/e10.ckpt"; "test/e20.ckpt"; "test/final.ckpt"]
           "test/final.ckpt" (MkSize 300 300)); try reflexivity.
  repeat constructor.
Defined.

(** C9 at three positional paths of which the second does not exist. *)
Lemma missing_files_silently_dropped_witness :
  let args := example_args ["in/a.jpg"; "missing.jpg"; "c.jpg"]
                (-1) true false 32 in
  let existing := ["in/a.jpg"; "c.jpg"] in
  resolve_files example_world args = existing
  /\ (Args.annotate args = false ->
      main example_world args
      = report_and_run example_world args "test/final.ckpt"
          "test/final.ckpt.meta" (MkSize 300 300) [])
  /\ (Args.annotate args = true -> existing <> [] ->
      main example_world args
      = report_and_run example_world args "test/final.ckpt"
          "test/final.ckpt.meta" (MkSize 300 300) existing)
  /\ (existsb is_error_line (log (run example_world args)) = true
      <-> Args.annotate args = true /\ existing = []).
Proof.
  exact (missing_files_silently_dropped example_world
           (example_args ["in/a.jpg"; "missing.jpg"; "c.jpg"]
              (-1) true false 32)
           ["test/e10.ckpt"; "test/e20.ckpt"; "test/final.ckpt"]
           "test/final.ckpt" (MkSize 300 300)
           eq_refl eq_refl eq_refl eq_refl).
Defined.

(** * Further properties of the driver and of the generator *)

(** ** Which files a batch holds *)

Section BatchFiles.

Variable dims : string -> option (Z * Z).

Lemma origin_decoded (sz : Z * Z) (files : list string) :
  map origin (map (decoded sz) files) = files.
Proof.
  induction files as [|f files IH]; [reflexivity|]. simpl. now rewrite IH.
Qed.

(** X1. The k-th yielded batch holds the images of the k-th run of
    [batch_size] consecutive samples, in order; and when every sample
    decodes, the files of the batches put end to end are the samples: each
    sample is decoded once, none is dropped or reordered. *)
Theorem batches_partition_samples (samples : list string) (image_size : Size)
    (B : Z) :
  let g := sample_generator dims samples image_size B in
  (forall k b, nth_error (yielded g) k = Some b ->
     map origin (items (fst b)) = chunk B samples k
     /\ snd b = map basename (chunk B samples k))
  /\ (0 < B -> 0 < w image_size -> 0 < h image_size ->
      forallb (decodable dims) samples = true ->
      List.concat (map (fun b => map origin (items (fst b))) (yielded g))
      = samples).
Proof.
  cbv zeta. split.
  - intros k b Hk.
    apply sample_generator_nth in Hk as (_ & _ & -> & _).
    unfold batch_of. simpl. now rewrite items_np_array, origin_decoded.
  - intros HB Hw Hh Hall.
    destruct (sample_generator_total dims samples image_size B HB Hw Hh Hall)
      as [-> _].
    rewrite map_map.
    rewrite (map_ext _ (chunk B samples)).
    + rewrite concat_chunks, firstn_all2; [reflexivity|].
      pose proof (n_offsets_bounds (len samples) B (len_nonneg samples) HB)
        as [_ Hhi].
      unfold len in *. nia.
    + intros k. unfold batch_of. simpl.
      now rewrite items_np_array, origin_decoded.
Qed.

Lemma basename_without_slash (p : string) :
  has_slash p = false -> basename p = p.
Proof.
  destruct p as [|c r]; [reflexivity|].
  rewrite has_slash_cons, basename_cons. intros H.
  apply orb_false_elim in H as [Hc Hr]. now rewrite Hr, Hc.
Qed.

(** X2. No yielded name holds a directory separator, and a sample given
    without a directory is named by its own path. *)
Theorem batch_names_have_no_separator (samples : list string)
    (image_size : Size) (B : Z) (k : nat) (b : batch) :
  nth_error (yielded (sample_generator dims samples image_size B)) k = Some b ->
  Forall (fun n => has_slash n = false) (snd b)
  /\ (Forall (fun f => has_slash f = false) (chunk B samples k) ->
      snd b = chunk B samples k).
Proof.
  intros Hk. apply sample_generator_nth in Hk as (_ & _ & -> & _).
  unfold batch_of. simpl. split.
  - apply Forall_forall. intros n Hn.
    apply in_map_iff in Hn as (f & <- & _). apply basename_no_slash.
  - intros Hplain. induction Hplain as [|f l Hf _ IH]; [reflexivity|].
    simpl. now rewrite basename_without_slash, IH.
Qed.

Lemma generate_app (samples : list string) (sz : Z * Z) (B : Z)
    (l1 l2 : list Z) :
  0 < fst sz -> 0 < snd sz ->
  (forall o, In o l1 ->
     forallb (decodable dims) (slice samples o (o + B)) = true) ->
  yielded (generate dims samples sz B (l1 ++ l2))
  = map (fun o => batch_of sz (slice samples o (o + B))) l1
    ++ yielded (generate dims samples sz B l2)
  /\ raised (generate dims samples sz B (l1 ++ l2))
     = raised (generate dims samples sz B l2).
Proof.
  intros Hw Hh. induction l1 as [|o l1 IH]; intros Hall; [auto|].
  cbn [app generate]. rewrite read_files_total by (auto; apply Hall; now left).
  cbn [app yielded raised map].
  destruct IH as [IHy IHr]; [intros o' Ho'; apply Hall; now right|].
  unfold batch_of at 1. now rewrite IHy, IHr.
Qed.

Lemma chunk_in_prefix {A} (B : Z) (pre rest : list A) (i : nat) (a : A) :
  0 < B -> (S i * Z.to_nat B <= List.length pre)%nat ->
  In a (chunk B (pre ++ rest) i) -> In a pre.
Proof.
  intros HB Hi Hin. apply In_nth_error in Hin as [j Hj].
  assert (Hlt : (j < Z.to_nat B)%nat).
  { assert (Hs : nth_error (chunk B (pre ++ rest) i) j <> None) by congruence.
    apply nth_error_Some in Hs. rewrite chunk_length in Hs. lia. }
  rewrite chunk_nth_error in Hj by assumption.
  rewrite nth_error_app1 in Hj by nia.
  eapply nth_error_In; eauto.
Qed.

Lemma yielded_until_failure (image_size : Size) (B : Z)
    (pre post : list string) (f : string) :
  0 < B -> 0 < w image_size -> 0 < h image_size ->
  forallb (decodable dims) pre = true -> decodable dims f = false ->
  let samples := pre ++ f :: post in
  let g := sample_generator dims samples image_size B in
  yielded g
  = map (fun k => batch_of (w image_size, h image_size) (chunk B samples k))
        (seq 0 (List.length pre / Z.to_nat B))
  /\ (exists e, raised g = Some e /\ exn_cls e = CvError).
Proof.
  intros HB Hw Hh Hpre Hf. cbv zeta.
  set (samples := pre ++ f :: post).
  set (b := Z.to_nat B). set (k := (List.length pre / b)%nat).
  assert (Hb : b <> 0%nat) by (subst b; lia).
  pose proof (Nat.div_mod_eq (List.length pre) b) as Hdm. fold k in Hdm.
  pose proof (Nat.mod_upper_bound (List.length pre) b Hb) as Hmod.
  destruct (sample_generator_stops_at dims image_size B pre post f HB Hf)
    as [Hraise Hlen]. fold samples b k in Hraise, Hlen.
  assert (Hy : yielded (sample_generator dims samples image_size B)
    = map (fun i => batch_of (w image_size, h image_size) (chunk B samples i))
          (seq 0 k)).
  { rewrite sample_generator_positive in * by assumption.
    set (n := n_offsets (len samples) B) in *.
    assert (Hkn : (k <= n)%nat).
    { pose proof (n_offsets_bounds (len samples) B (len_nonneg samples) HB)
        as [_ Hhi].
      assert (len samples = Z.of_nat (List.length pre) + 1
                            + Z.of_nat (List.length post)).
      { unfold len, samples. rewrite length_app. simpl. lia. }
      assert (Z.of_nat b = B) by (subst b; lia). fold n in Hhi. nia. }
    replace n with (k + (n - k))%nat in * by lia.
    rewrite seq_app, map_app in *.
    destruct (generate_app samples (w image_size, h image_size) B
                (map (fun i => Z.of_nat i * B) (seq 0 k))
                (map (fun i => Z.of_nat i * B) (seq (0 + k) (n - k))))
      as [Hy _]; [exact Hw|exact Hh| |].
    - intros o Ho. apply in_map_iff in Ho as (i & <- & Hi).
      apply in_seq in Hi. rewrite slice_is_chunk by assumption.
      apply forallb_forall. intros a Ha.
      apply (chunk_in_prefix B pre (f :: post) i a HB) in Ha; [|fold b; nia].
      rewrite forallb_forall in Hpre. auto.
    - rewrite Hy in Hlen |- *. rewrite length_app, !length_map, length_seq in Hlen.
      assert (Hnil : yielded (generate dims samples (w image_size, h image_size) B
                        (map (fun i => Z.of_nat i * B) (seq (0 + k) (n - k)))) = []).
      { apply length_zero_iff_nil. lia. }
      rewrite Hnil, app_nil_r, map_map.
      apply map_ext. intros i. now rewrite slice_is_chunk. }
  split; [exact Hy|exact Hraise].
Qed.

(** X3. When the first file that fails to decode sits at position [p], the
    generator yields exactly the [p / B] full batches before the one that
    holds it, each as on a complete run, and then raises: the files that
    share the failing batch are lost with it even when they decode. *)
Theorem decode_failure_keeps_earlier_batches (image_size : Size) (B : Z)
    (pre post : list string) (f : string) :
  0 < B -> 0 < w image_size -> 0 < h image_size ->
  forallb (decodable dims) pre = true -> decodable dims f = false ->
  let samples := pre ++ f :: post in
  let g := sample_generator dims samples image_size B in
  yielded g
  = map (fun k => batch_of (w image_size, h image_size) (chunk B samples k))
        (seq 0 (List.length pre / Z.to_nat B))
  /\ (exists e, raised g = Some e /\ exn_cls e = CvError)
  /\ Z.of_nat (List.length (List.concat (map snd (yielded g))))
     = Z.of_nat (List.length pre) - Z.of_nat (List.length pre) mod B.
Proof.
  intros HB Hw Hh Hpre Hf. cbv zeta.
  destruct (yielded_until_failure image_size B pre post f HB Hw Hh Hpre Hf)
    as [Hy Hraise].
  split; [exact Hy|]. split; [exact Hraise|].
  set (samples := pre ++ f :: post) in *. set (b := Z.to_nat B) in *.
  assert (Hb : b <> 0%nat) by (subst b; lia).
  pose proof (Nat.div_mod_eq (List.length pre) b) as Hdm.
  pose proof (Nat.mod_upper_bound (List.length pre) b Hb) as Hmod.
  rewrite Hy, map_map. cbn [batch_of snd].
  rewrite <- (map_map (chunk B samples) (map basename)), <- concat_map.
  rewrite length_map, concat_chunks, length_firstn. fold b.
  assert (HBb : B = Z.of_nat b) by (subst b; lia).
  rewrite HBb at 1. rewrite <- Nat2Z.inj_mod.
  unfold samples. rewrite length_app. simpl. lia.
Qed.

End BatchFiles.

(** ** The log of the report and of the loop *)

Section LogFacts.

Variables (W : World) (args : Args.t).

Lemma dirs_of_app (t1 t2 : list event) :
  dirs_of (t1 ++ t2) = dirs_of t1 ++ dirs_of t2.
Proof.
  induction t1 as [|ev t1 IH]; [reflexivity|].
  destruct ev; simpl; rewrite IH; reflexivity.
Qed.

Lemma dirs_of_none (t : list event) :
  (forall d, ~ In (MakeDirs d) t) -> dirs_of t = [].
Proof.
  induction t as [|ev t IH]; intros H; [reflexivity|].
  destruct ev as [items|d|m c|x|p v]; simpl;
    try (apply IH; intros d' Hin; apply (H d'); now right).
  exfalso. apply (H d). now left.
Qed.

Lemma report_and_run_plain (checkpoint_file metagraph_file : string)
    (image_size : Size) (files : list string) (ev : event) :
  In ev (fst (report_and_run W args checkpoint_file metagraph_file
                image_size files)) ->
  is_error_line ev = false /\ forall d, ev <> MakeDirs d.
Proof.
  intros Hin. apply report_and_run_log in Hin as [Hi|[->|Hp]].
  - split; [now apply info_line_not_error|].
    intros d ->. discriminate.
  - split; [reflexivity|discriminate].
  - apply process_log in Hp as [[x ->]|(p & v & -> & _)];
      (split; [reflexivity|discriminate]).
Qed.

Lemma report_and_run_no_error (checkpoint_file metagraph_file : string)
    (image_size : Size) (files : list string) :
  existsb is_error_line
    (fst (report_and_run W args checkpoint_file metagraph_file image_size files))
  = false.
Proof.
  apply not_true_is_false. intros H.
  apply existsb_exists in H as (ev & Hin & Hev).
  apply report_and_run_plain in Hin as [Hne _]. congruence.
Qed.

Lemma report_and_run_dirs (checkpoint_file metagraph_file : string)
    (image_size : Size) (files : list string) :
  dirs_of (fst (report_and_run W args checkpoint_file metagraph_file
                  image_size files)) = [].
Proof.
  apply dirs_of_none. intros d Hin.
  apply report_and_run_plain in Hin as [_ Hd]. now apply (Hd d).
Qed.

(** When no save raises, the network is run on every yielded batch, in
    order, also when the generator ends in an exception. *)
Lemma process_runs_eq (g : gen batch) :
  row_per_image W -> saves_succeed W ->
  Forall (fun b => List.length (snd b) = List.length (items (fst b))) (yielded g) ->
  runs_of (fst (process W args g)) = map fst (yielded g).
Proof.
  intros Hnet Hsave.
  induction g as [| e | [x names] k IH]; intros Hlen;
    [reflexivity | reflexivity | cbn [process yielded] in *].
  inversion Hlen as [|b bs Hb Hbs]; subst. simpl in Hb.
  rewrite bind_emit. cbn [fst runs_of map].
  rewrite fst_bind, runs_of_app.
  destruct (dump_step_log W args names (sess_run W x)) as (l & Hl & _).
  rewrite Hl, runs_of_Save.
  rewrite dump_step_result by (rewrite ?Hnet; auto).
  simpl. now rewrite IH.
Qed.

(** When no save raises, the saves of the loop are those of the yielded
    batches, also when the generator ends in an exception and whatever the
    flags. *)
Lemma process_saves_any (g : gen batch) :
  row_per_image W -> saves_succeed W ->
  Forall (fun b => List.length (snd b) = List.length (items (fst b))) (yielded g) ->
  saves_of (fst (process W args g))
  = if Args.annotate args && Args.dump_prediction args
    then expected_saves W args (yielded g) else [].
Proof.
  intros Hnet Hsave Hlen.
  destruct (Args.annotate args && Args.dump_prediction args) eqn:Hflags.
  - now apply process_saves.
  - apply saves_of_none. intros path v Hin.
    apply process_log in Hin as [[x Hx]|(p & v' & _ & Hf)];
      [discriminate|congruence].
Qed.

Lemma report_and_run_runs_eq (checkpoint_file metagraph_file : string)
    (image_size : Size) (files : list string) :
  runs_of (fst (report_and_run W args checkpoint_file metagraph_file
                  image_size files))
  = if Args.batch_size args =? 0 then []
    else runs_of (fst (process W args
                         (sample_generator (native_dims W) files image_size
                            (Args.batch_size args)))).
Proof.
  rewrite report_and_run_unfold. cbv zeta. cbn [fst].
  rewrite run_network_unfold.
  destruct (Args.batch_size args =? 0); [reflexivity|].
  cbn [fst snd]. rewrite !runs_of_app. cbn [runs_of].
  destruct (snd (process W args _)); simpl; now rewrite app_nil_r.
Qed.

Lemma process_run_yielded (g : gen batch) (x : batch_array) :
  In (SessRun x) (fst (process W args g)) ->
  exists names, In (x, names) (yielded g).
Proof.
  induction g as [| e | [x0 names0] k IH];
    [simpl; tauto | simpl; tauto | cbn [process yielded]].
  rewrite bind_emit. cbn [fst]. rewrite fst_bind.
  destruct (dump_step_log W args names0 (sess_run W x0)) as (l & Hl & _).
  rewrite Hl. intros [[= <-]|Hin]; [exists names0; now left|].
  apply in_app_or in Hin as [Hin|Hin].
  - apply in_map_iff in Hin as (pv & Hpv & _). discriminate.
  - destruct (snd (dump_step W args names0 (sess_run W x0))); [|destruct Hin].
    destruct (IH Hin) as [names Hn]. exists names. now right.
Qed.

End LogFacts.

(** ** Runs that reach the report *)

Section RunFacts.

Variables (W : World) (args : Args.t).
Variables (paths : list string) (checkpoint_file : string) (image_size : Size).

Hypothesis Hstate : checkpoint_state W (Args.name args) = Some paths.
Hypothesis Hindex : index paths (Args.checkpoint args) = Ok checkpoint_file.
Hypothesis Hmeta : path_exists W (checkpoint_file ++ ".meta") = true.
Hypothesis Hload : load_training_data W args = Ok image_size.

Local Abbreviation metagraph_file := (checkpoint_file ++ ".meta")%string.
Local Abbreviation files := (resolve_files W args).
Local Abbreviation report :=
  (report_and_run W args checkpoint_file metagraph_file image_size files).
Local Abbreviation g :=
  (sample_generator (native_dims W) files image_size (Args.batch_size args)).

Lemma main_runs :
  Args.annotate args = false \/ files <> [] ->
  (Args.annotate args = true -> makedirs_succeeds W args) ->
  main W args
  = ((if Args.annotate args && negb (path_exists W (Args.output_dir args))
      then [MakeDirs (Args.output_dir args)] else []) ++ fst report,
     snd report).
Proof.
  intros Hgo Hmk.
  rewrite (main_past_preflight W args paths checkpoint_file image_size)
    by assumption.
  destruct (Args.annotate args) eqn:Ha.
  - destruct Hgo as [Hgo|Hgo]; [discriminate|].
    destruct files as [|f fs] eqn:Hf; [congruence|].
    cbn [andb].
    destruct (negb (path_exists W (Args.output_dir args))).
    + rewrite os_makedirs_cases, (Hmk eq_refl).
      now destruct (report_and_run _ _ _ _ _ _).
    + rewrite bind_ret. now destruct (report_and_run _ _ _ _ _ _).
  - cbn [andb app]. now destruct (report_and_run _ _ _ _ _ _).
Qed.

(** X8. With a batch size of zero the run gets as far as building the model
    (when creating the output directory does not raise) and then dies on
    the division of line 144, before the network is run or anything is
    saved. *)
Theorem zero_batch_size_aborts_after_build :
  Args.annotate args = false \/ files <> [] ->
  makedirs_succeeds W args ->
  Args.batch_size args = 0 ->
  traceback (run W args) = Some (Exn ZeroDivisionError "division by zero")
  /\ exit_code (run W args) = 1
  /\ In (BuildModel metagraph_file checkpoint_file) (log (run W args))
  /\ runs_of (log (run W args)) = []
  /\ saves_of (log (run W args)) = [].
Proof.
  intros Hgo Hmk HB.
  rewrite traceback_run, exit_code_run, log_run, (main_runs Hgo (fun _ => Hmk)).
  cbn [fst snd].
  rewrite report_and_run_result, runs_of_app, saves_of_app,
    report_and_run_runs_eq, report_and_run_saves, HB.
  cbn [Z.eqb]. repeat split.
  - apply in_or_app. right. rewrite report_and_run_unfold. cbv zeta.
    cbn [fst]. apply in_or_app. right. apply in_or_app. left.
    rewrite run_network_unfold, HB. simpl. auto.
  - now destruct (_ && _).
  - now destruct (_ && _).
Qed.

(** X9. With a negative batch size the run ends normally with code 0 (when
    creating the output directory does not raise) although no file was
    processed: the network is never run and nothing is saved, whatever the
    list of files. *)
Theorem negative_batch_size_processes_nothing :
  Args.annotate args = false \/ files <> [] ->
  makedirs_succeeds W args ->
  Args.batch_size args < 0 ->
  exit_code (run W args) = 0
  /\ traceback (run W args) = None
  /\ runs_of (log (run W args)) = []
  /\ saves_of (log (run W args)) = [].
Proof.
  intros Hgo Hmk HB.
  assert (Hg : g = GStop).
  { unfold sample_generator.
    now rewrite range_negative_step by (auto using len_nonneg). }
  rewrite traceback_run, exit_code_run, log_run, (main_runs Hgo (fun _ => Hmk)).
  cbn [fst snd].
  rewrite report_and_run_result, runs_of_app, saves_of_app,
    report_and_run_runs_eq, report_and_run_saves, Hg.
  destruct (Z.eqb_spec (Args.batch_size args) 0) as [H0|_]; [lia|].
  simpl. repeat split; now destruct (_ && _).
Qed.

(** X10. Without [--annotate] the positional files are never read: whatever
    they are, the report counts zero files, the model is built, the
    network is not run, nothing is saved, no directory is created, and the
    run ends with code 0 (for a batch size other than zero). *)
Theorem without_annotate_nothing_processed :
  Args.annotate args = false ->
  Args.batch_size args <> 0 ->
  exit_code (run W args) = 0
  /\ traceback (run W args) = None
  /\ In (Print [PStr "[i] Number of files:   "; PInt 0]) (log (run W args))
  /\ In (BuildModel metagraph_file checkpoint_file) (log (run W args))
  /\ runs_of (log (run W args)) = []
  /\ saves_of (log (run W args)) = []
  /\ dirs_of (log (run W args)) = [].
Proof.
  intros Ha HB.
  assert (Hfiles : files = []) by (now rewrite resolve_files_filter, Ha).
  assert (Hy : yielded g = [] /\ raised g = None).
  { rewrite Hfiles.
    destruct (Z.lt_trichotomy (Args.batch_size args) 0) as [Hn|[H0|Hp]];
      [|lia|].
    - unfold sample_generator.
      now rewrite range_negative_step by (auto using len_nonneg).
    - rewrite sample_generator_positive by assumption.
      unfold n_offsets, len. simpl List.length.
      rewrite Z.div_small by lia. auto. }
  destruct Hy as [Hy Hr].
  assert (Hp : process W args g = ([], Ok tt)).
  { destruct g as [| e | b k]; [reflexivity|discriminate|discriminate]. }
  assert (Hmk : Args.annotate args = true -> makedirs_succeeds W args)
    by congruence.
  rewrite traceback_run, exit_code_run, log_run, (main_runs (or_introl Ha) Hmk).
  rewrite Ha. cbn [andb app fst snd].
  rewrite report_and_run_result, report_and_run_runs_eq, report_and_run_saves,
    report_and_run_dirs, Hp.
  destruct (Z.eqb_spec (Args.batch_size args) 0) as [H0|_]; [lia|].
  cbn [fst snd runs_of saves_of].
  repeat split.
  - rewrite report_and_run_unfold. cbv zeta. cbn [fst].
    apply in_or_app. left. rewrite Hfiles. simpl. auto 10.
  - rewrite report_and_run_unfold. cbv zeta. cbn [fst].
    apply in_or_app. right. apply in_or_app. left.
    rewrite run_network_unfold. destruct (_ =? 0); simpl; auto.
Qed.

(** X11. The output directory is created exactly when annotating, with at
    least one existing positional file, while the directory does not
    exist yet; then it is created once, under the configured name. *)
Theorem output_dir_created_iff :
  dirs_of (log (run W args))
  = if Args.annotate args
       && negb (path_exists W (Args.output_dir args))
       && match files with [] => false | _ => true end
    then [Args.output_dir args] else [].
Proof.
  rewrite log_run.
  destruct (Args.annotate args) eqn:Ha.
  - destruct files as [|f fs] eqn:Hf.
    + rewrite (main_past_preflight W args paths checkpoint_file image_size)
        by assumption.
      rewrite Ha, Hf, andb_false_r. reflexivity.
    + rewrite (main_past_preflight W args paths checkpoint_file image_size)
        by assumption.
      rewrite Ha, Hf, fst_bind, dirs_of_app, andb_true_r. cbn [andb].
      assert (Hrest : forall r : result unit,
                dirs_of match r with
                        | Ok _ => fst (report_and_run W args checkpoint_file
                                         metagraph_file image_size (f :: fs))
                        | Raise _ => []
                        end = []).
      { intros [[]|e]; [apply report_and_run_dirs|reflexivity]. }
      rewrite Hrest.
      destruct (negb (path_exists W (Args.output_dir args)));
        [now rewrite os_makedirs_log|reflexivity].
  - assert (Hmk : Args.annotate args = true -> makedirs_succeeds W args)
      by congruence.
    rewrite (main_runs (or_introl Ha) Hmk). cbn [fst].
    rewrite dirs_of_app, report_and_run_dirs, Ha. reflexivity.
Qed.

(** X12. A run that decodes every file, on which the network returns one
    row per image and neither [os.makedirs] nor [np.save] raises, returns
    0 after running the network on every yielded batch in order, that is
    ceil(N/B) times for N files, and its last event is the closing line. *)
Theorem complete_run_succeeds :
  Args.annotate args = false \/ files <> [] ->
  0 < Args.batch_size args -> 0 < w image_size -> 0 < h image_size ->
  forallb (decodable (native_dims W)) files = true ->
  row_per_image W -> saves_succeed W -> makedirs_succeeds W args ->
  exit_code (run W args) = 0
  /\ traceback (run W args) = None
  /\ runs_of (log (run W args)) = map fst (yielded g)
  /\ len (runs_of (log (run W args)))
     = (len files + Args.batch_size args - 1) / Args.batch_size args
  /\ exists t, log (run W args) = t ++ [Print [PStr "[i] All done."]].
Proof.
  intros Hgo HB Hw Hh Hall Hnet Hsave Hmk.
  destruct (sample_generator_total (native_dims W) files image_size
              (Args.batch_size args) HB Hw Hh Hall) as [Hy Hr].
  pose proof (process_result W args g Hnet Hsave
                (sample_generator_names_length _ _ _ _)) as Hres.
  rewrite Hr in Hres.
  assert (Hruns : runs_of (log (run W args)) = map fst (yielded g)).
  { rewrite log_run, (main_runs Hgo (fun _ => Hmk)). cbn [fst].
    rewrite runs_of_app, report_and_run_runs_eq.
    destruct (Z.eqb_spec (Args.batch_size args) 0) as [H0|_]; [lia|].
    rewrite (process_runs_eq W args g Hnet Hsave
               (sample_generator_names_length _ _ _ _)).
    now destruct (_ && _). }
  rewrite traceback_run, exit_code_run, Hruns.
  rewrite log_run, (main_runs Hgo (fun _ => Hmk)). cbn [fst snd].
  rewrite report_and_run_result, Hres.
  destruct (Z.eqb_spec (Args.batch_size args) 0) as [H0|_]; [lia|].
  repeat split.
  - unfold len at 1. rewrite length_map, Hy, length_map, length_seq.
    unfold n_offsets. apply Z2Nat.id. apply Z.div_pos; [|lia].
    pose proof (len_nonneg files). lia.
  - rewrite report_and_run_unfold. cbv zeta. cbn [fst].
    rewrite run_network_unfold.
    destruct (Z.eqb_spec (Args.batch_size args) 0) as [H0|_]; [lia|].
    cbn [fst snd]. rewrite Hres.
    eexists. rewrite !app_assoc. reflexivity.
Qed.

(** X13. The predictions are saved batch by batch as the batches are yielded:
    with both flags set, a network returning one row per image and no
    failing [os.makedirs] or [np.save], the saves of a run are exactly
    those of the batches the generator yielded, and the network was run on
    exactly those batches, also when a later file fails to decode and the
    run ends in a traceback. *)
Theorem saves_follow_yields :
  Args.annotate args = true -> Args.dump_prediction args = true ->
  Args.batch_size args <> 0 ->
  row_per_image W -> saves_succeed W -> makedirs_succeeds W args ->
  saves_of (log (run W args)) = expected_saves W args (yielded g)
  /\ runs_of (log (run W args)) = map fst (yielded g).
Proof.
  intros Ha Hd HB Hnet Hsave Hmk. rewrite log_run.
  destruct files as [|f fs] eqn:Hf.
  - rewrite (main_past_preflight W args paths checkpoint_file image_size)
      by assumption.
    rewrite Ha, Hf.
    assert (Hy : yielded (sample_generator (native_dims W) [] image_size
                            (Args.batch_size args)) = []).
    { destruct (Z.lt_trichotomy (Args.batch_size args) 0) as [Hn|[H0|Hp]];
        [|lia|].
      - now apply sample_generator_nonpositive; lia.
      - rewrite sample_generator_positive by assumption.
        unfold n_offsets, len. simpl List.length.
        rewrite Z.div_small by lia. reflexivity. }
    rewrite Hy. split; reflexivity.
  - rewrite main_runs by (auto; right; congruence). cbn [fst].
    rewrite saves_of_app, runs_of_app, Hf, report_and_run_saves,
      report_and_run_runs_eq.
    destruct (Z.eqb_spec (Args.batch_size args) 0) as [H0|_]; [lia|].
    rewrite (process_saves_any W args _ Hnet Hsave
               (sample_generator_names_length _ _ _ _)).
    rewrite (process_runs_eq W args _ Hnet Hsave
               (sample_generator_names_length _ _ _ _)).
    rewrite Ha, Hd. cbn [andb].
    split; now destruct (negb _).
Qed.

(** X14. When the first file that fails to decode sits at position [p] of the
    processed list, a run with both flags set, on which the network
    returns one row per image and neither [os.makedirs] nor [np.save]
    raises, ends in the traceback of OpenCV's error having saved the
    predictions of exactly the first [p - p mod B] files, those of the
    full batches before the failing one, in order. *)
Theorem decode_failure_leaves_earlier_predictions
    (pre post : list string) (f : string) :
  files = pre ++ f :: post ->
  forallb (decodable (native_dims W)) pre = true ->
  decodable (native_dims W) f = false ->
  Args.annotate args = true -> Args.dump_prediction args = true ->
  0 < Args.batch_size args -> 0 < w image_size -> 0 < h image_size ->
  row_per_image W -> saves_succeed W -> makedirs_succeeds W args ->
  let kept := (List.length pre / Z.to_nat (Args.batch_size args)
               * Z.to_nat (Args.batch_size args))%nat in
  map fst (saves_of (log (run W args)))
  = map (fun x => dump_path args (basename x)) (firstn kept files)
  /\ (exists e, traceback (run W args) = Some e /\ exn_cls e = CvError)
  /\ exit_code (run W args) = 1.
Proof.
  intros Hfiles Hpre Hf Ha Hd HB Hw Hh Hnet Hsave Hmk. cbv zeta.
  assert (Hgo : Args.annotate args = false \/ files <> []).
  { right. rewrite Hfiles. now destruct pre. }
  destruct (yielded_until_failure (native_dims W) image_size
              (Args.batch_size args) pre post f HB Hw Hh Hpre Hf)
    as (Hy & (e & He & Hcls)).
  rewrite <- Hfiles in Hy, He.
  pose proof (process_result W args g Hnet Hsave
                (sample_generator_names_length _ _ _ _)) as Hres.
  rewrite He in Hres.
  rewrite traceback_run, exit_code_run, log_run, (main_runs Hgo (fun _ => Hmk)).
  cbn [fst snd].
  rewrite report_and_run_result, saves_of_app, report_and_run_saves, Hres.
  destruct (Z.eqb_spec (Args.batch_size args) 0) as [H0|_]; [lia|].
  rewrite (process_saves_any W args _ Hnet Hsave
             (sample_generator_names_length _ _ _ _)), Ha, Hd.
  cbn [andb].
  split; [|split; [eauto|reflexivity]].
  replace (saves_of (if negb (path_exists W (Args.output_dir args))
                     then [MakeDirs (Args.output_dir args)] else []))
    with (@nil (string * prediction)) by (now destruct (negb _)).
  cbn [app].
  rewrite (expected_saves_paths W args _ Hnet
             (sample_generator_names_length _ _ _ _)).
  rewrite Hy, map_map. cbn [batch_of snd].
  rewrite <- (map_map (chunk (Args.batch_size args) files) (map basename)),
    <- concat_map, concat_chunks.
  now rewrite map_map.
Qed.

Lemma sess_run_batches_well_formed (x : batch_array) :
  In (SessRun x) (log (run W args)) ->
  bshape x = [len (items x); h image_size; w image_size; 3]
  /\ belt x = Float32
  /\ 0 < len (items x) <= Args.batch_size args.
Proof.
  rewrite log_run. intros Hin.
  assert (Hp : In (SessRun x) (fst (process W args g))).
  { rewrite (main_past_preflight W args paths checkpoint_file image_size)
      in Hin by assumption.
    assert (Hrep : In (SessRun x) (fst report) ->
                   In (SessRun x) (fst (process W args g))).
    { intros H. apply report_and_run_log in H as [Hi|[Hb|Hp]];
        [discriminate|discriminate|exact Hp]. }
    destruct (Args.annotate args); [|auto].
    destruct files as [|f0 fs] eqn:Hf0.
    - simpl in Hin. destruct Hin as [Hin|[]]. discriminate.
    - rewrite fst_bind in Hin. apply in_app_or in Hin as [Hin|Hin].
      + destruct (negb _); [rewrite os_makedirs_log in Hin|];
          simpl in Hin; [destruct Hin as [Hin|[]]|destruct Hin].
        discriminate.
      + rewrite <- Hf0 in *. apply Hrep.
        destruct (snd _); [exact Hin|destruct Hin]. }
  apply process_run_yielded in Hp as [names Hy].
  apply In_nth_error in Hy as [k Hk].
  apply sample_generator_nth in Hk as (HB & _ & E & Hne & _).
  unfold batch_of in E. injection E as -> _.
  rewrite np_array_decoded by assumption. cbn [bshape belt items fst snd].
  unfold len. rewrite length_map. repeat split.
  - destruct (chunk _ _ k); [congruence|simpl; lia].
  - rewrite chunk_length. lia.
Qed.

Lemma index_head {A} (a : A) (l : list A) : index (a :: l) (Z.of_nat 0 * 1) = Ok a.
Proof. exact (index_app_middle [] a l). Qed.

Lemma dump_step_first_fails (n : string) (names : list string)
    (v : prediction) (boxes : list prediction) (e : exn) :
  Args.annotate args && Args.dump_prediction args = true ->
  save_error W (dump_path args n) = Some e ->
  dump_step W args (n :: names) (v :: boxes)
  = ([Save (dump_path args n) v], Raise e).
Proof.
  intros Hflags He. unfold dump_step.
  rewrite Hflags, range_len, bind_lift_ok.
  cbn [List.length seq map dump_loop].
  rewrite !index_head, !bind_lift_ok.
  unfold np_save. fold (dump_path args n). now rewrite He.
Qed.

(** X17. When creating the output directory raises, the run ends there
    with the traceback of that error: nothing is printed, and the model is
    neither built nor run. *)
Theorem makedirs_failure_aborts_run (e : exn) :
  Args.annotate args = true -> files <> [] ->
  path_exists W (Args.output_dir args) = false ->
  makedirs_error W (Args.output_dir args) = Some e ->
  run W args = MkProcess [MakeDirs (Args.output_dir args)] 1 (Some e)
  /\ existsb is_model_work (log (run W args)) = false.
Proof.
  intros Ha Hne Hout He.
  assert (Hrun : run W args
                 = MkProcess [MakeDirs (Args.output_dir args)] 1 (Some e)).
  { unfold run.
    rewrite (main_past_preflight W args paths checkpoint_file image_size)
      by assumption.
    rewrite Ha, Hout. destruct files; [congruence|].
    cbn [negb]. now rewrite os_makedirs_cases, He. }
  rewrite Hrun. split; reflexivity.
Qed.

(** X18. When the first [np.save] raises, for instance because the output
    directory cannot be written, the run ends there with the traceback of
    that error: the model was built and the network run on the first
    batch only, and the failing save is the only one attempted. *)
Theorem save_failure_aborts_run (f : string) (rest : list string) (e : exn) :
  files = f :: rest ->
  Args.annotate args = true -> Args.dump_prediction args = true ->
  0 < Args.batch_size args -> 0 < w image_size -> 0 < h image_size ->
  forallb (decodable (native_dims W))
    (chunk (Args.batch_size args) files 0) = true ->
  row_per_image W -> makedirs_succeeds W args ->
  save_error W (dump_path args (basename f)) = Some e ->
  traceback (run W args) = Some e
  /\ exit_code (run W args) = 1
  /\ map fst (saves_of (log (run W args))) = [dump_path args (basename f)]
  /\ runs_of (log (run W args))
     = [fst (batch_of (w image_size, h image_size)
               (chunk (Args.batch_size args) files 0))]
  /\ In (BuildModel metagraph_file checkpoint_file) (log (run W args)).
Proof.
  intros Hfiles Ha Hd HB Hw Hh Hall Hnet Hmk He.
  assert (Hgo : Args.annotate args = false \/ files <> []).
  { right. rewrite Hfiles. discriminate. }
  set (B := Args.batch_size args) in *.
  set (first := chunk B files 0) in *.
  assert (Hfirst : exists more, first = f :: more).
  { unfold first, chunk. rewrite Hfiles. cbn [Nat.mul skipn].
    destruct (Z.to_nat B) as [|b] eqn:Eb; [lia|]. simpl. eauto. }
  destruct Hfirst as [more Hmore].
  assert (Hg : exists k, g = GYield (batch_of (w image_size, h image_size) first) k).
  { rewrite sample_generator_positive by assumption. fold B.
    pose proof (n_offsets_bounds (len files) B (len_nonneg files) HB) as [_ Hhi].
    destruct (n_offsets (len files) B) as [|n] eqn:En.
    { rewrite Hfiles in Hhi. unfold len in Hhi. simpl in Hhi. lia. }
    cbn [seq map generate].
    rewrite (slice_is_chunk files 0 B HB). fold first.
    rewrite read_files_total by assumption. eauto. }
  destruct Hg as [k Hg].
  set (x := fst (batch_of (w image_size, h image_size) first)).
  assert (Hbox : exists v boxes, sess_run W x = v :: boxes).
  { pose proof (Hnet x) as Hl.
    assert (Hx : List.length (items x) = S (List.length more)).
    { unfold x, batch_of. cbn [fst].
      now rewrite items_np_array, length_map, Hmore. }
    rewrite Hx in Hl.
    destruct (sess_run W x) as [|v boxes]; [discriminate|]. eauto. }
  destruct Hbox as (v & boxes & Hbox).
  assert (Hp : process W args g
               = ([SessRun x; Save (dump_path args (basename f)) v], Raise e)).
  { assert (Hb : batch_of (w image_size, h image_size) first
                 = (x, basename f :: map basename more)).
    { change (batch_of (w image_size, h image_size) first)
        with (x, map basename first). now rewrite Hmore. }
    rewrite Hg, Hb. cbn [process]. rewrite bind_emit, Hbox.
    rewrite (dump_step_first_fails (basename f) (map basename more) v boxes e)
      by (rewrite ?Ha, ?Hd; auto).
    reflexivity. }
  rewrite traceback_run, exit_code_run, log_run, (main_runs Hgo (fun _ => Hmk)).
  cbn [fst snd].
  rewrite report_and_run_result, saves_of_app, runs_of_app,
    report_and_run_saves, report_and_run_runs_eq, Hp.
  assert (HB0 : (Args.batch_size args =? 0) = false).
  { apply Z.eqb_neq. fold B. lia. }
  rewrite !HB0.
  cbn [fst snd saves_of runs_of map].
  repeat split.
  - now destruct (_ && _).
  - now destruct (_ && _).
  - apply in_or_app. right. rewrite report_and_run_unfold. cbv zeta.
    cbn [fst]. apply in_or_app. right. apply in_or_app. left.
    rewrite run_network_unfold. destruct (_ =? 0); simpl; auto.
Qed.

End RunFacts.

(** ** Exits and reports *)

Section ExitFacts.

Variables (W : World) (args : Args.t).

Lemma index_at {A} (init : list A) (a : A) (tail : list A) (i : Z) :
  i = len init \/ i = - len tail - 1 ->
  index (init ++ a :: tail) i = Ok a.
Proof.
  intros Hi. unfold index.
  assert (Hlen : len (init ++ a :: tail) = len init + 1 + len tail).
  { unfold len. rewrite length_app. simpl. lia. }
  pose proof (len_nonneg init). pose proof (len_nonneg tail).
  assert (Hj : (if i <? 0 then i + len (init ++ a :: tail) else i) = len init).
  { destruct (Z.ltb_spec i 0); lia. }
  rewrite Hj, Hlen.
  destruct (Z.leb_spec 0 (len init)); [|lia].
  destruct (Z.ltb_spec (len init) (len init + 1 + len tail)); [|lia].
  simpl. unfold len. rewrite Nat2Z.id, nth_error_app2 by lia.
  now rewrite Nat.sub_diag.
Qed.

(** X4. [--checkpoint i] selects the checkpoint at position [i] of the state's
    list, and a negative [i] counts from the end, so that the default -1
    is the most recent one; the run reports that checkpoint and, when
    creating the output directory does not raise, builds the model from it
    and from its [.meta] file. *)
Theorem checkpoint_selected_by_index (init tail : list string)
    (checkpoint_file : string) (image_size : Size) :
  checkpoint_state W (Args.name args) = Some (init ++ checkpoint_file :: tail) ->
  Args.checkpoint args = len init \/ Args.checkpoint args = - len tail - 1 ->
  path_exists W (checkpoint_file ++ ".meta") = true ->
  load_training_data W args = Ok image_size ->
  Args.annotate args = false \/ resolve_files W args <> [] ->
  makedirs_succeeds W args ->
  In (Print [PStr "[i] Network checkpoint:"; PStr checkpoint_file])
     (log (run W args))
  /\ In (BuildModel (checkpoint_file ++ ".meta") checkpoint_file)
        (log (run W args)).
Proof.
  intros Hstate Hi Hmeta Hload Hgo Hmk.
  pose proof (index_at init checkpoint_file tail _ Hi) as Hindex.
  rewrite log_run,
    (main_runs W args _ checkpoint_file image_size Hstate Hindex Hmeta Hload
       Hgo (fun _ => Hmk)).
  cbn [fst]. rewrite report_and_run_unfold. cbv zeta. cbn [fst].
  split; apply in_or_app; right.
  - apply in_or_app. left. simpl. auto.
  - apply in_or_app. right. apply in_or_app. left.
    rewrite run_network_unfold. destruct (_ =? 0); simpl; auto.
Qed.

(** X5. A missing checkpoint state and a missing metagraph file are each
    reported by one line naming the project or the file, with return code
    1 and nothing else done. *)
Theorem early_exits_reported :
  (checkpoint_state W (Args.name args) = None ->
   run W args
   = MkProcess [Print [PStr ("[!] No network state found in "
                             ++ Args.name args)]] 1 None)
  /\ (forall paths checkpoint_file,
      checkpoint_state W (Args.name args) = Some paths ->
      index paths (Args.checkpoint args) = Ok checkpoint_file ->
      path_exists W (checkpoint_file ++ ".meta") = false ->
      run W args
      = MkProcess [Print [PStr ("[!] Cannot find metagraph "
                                ++ checkpoint_file ++ ".meta")]] 1 None).
Proof.
  split.
  - intros Hstate. unfold run, main. now rewrite Hstate.
  - intros paths checkpoint_file Hstate Hindex Hmeta.
    unfold run, main. now rewrite Hstate, Hindex, Hmeta.
Qed.

(** X6. A training-data file that unpickles to something other than a
    dictionary, or whose preset has no [image_size], is not reported: the
    [TypeError] or [AttributeError] is outside the handler's list, nothing
    is logged and the process ends with the traceback of that error. *)
Theorem malformed_training_data_escapes (paths : list string)
    (checkpoint_file : string) (f : nat) :
  checkpoint_state W (Args.name args) = Some paths ->
  index paths (Args.checkpoint args) = Ok checkpoint_file ->
  path_exists W (checkpoint_file ++ ".meta") = true ->
  open_rb W (Args.training_data args) = Ok f ->
  (forall text,
     pickle_load W f = Ok (PyOther text) ->
     log (run W args) = [] /\ exit_code (run W args) = 1
     /\ exists e, traceback (run W args) = Some e /\ exn_cls e = TypeError)
  /\ (forall entries text,
      pickle_load W f = Ok (PyDict entries) ->
      lookup entries "preset" = Some (PyPlain text) ->
      log (run W args) = [] /\ exit_code (run W args) = 1
      /\ exists e, traceback (run W args) = Some e
                   /\ exn_cls e = AttributeError).
Proof.
  intros Hstate Hindex Hmeta Hopen. split.
  - intros text Hpickle.
    assert (Hrun : run W args = MkProcess [] 1 (Some (Exn TypeError text))).
    { unfold run, main, load_training_data, rbind.
      now rewrite Hstate, Hindex, Hmeta, Hopen, Hpickle. }
    rewrite Hrun. simpl. eauto.
  - intros entries text Hpickle Hlookup.
    assert (Hrun : run W args = MkProcess [] 1 (Some (Exn AttributeError text))).
    { unfold run, main, load_training_data, rbind.
      rewrite Hstate, Hindex, Hmeta, Hopen, Hpickle. simpl.
      now rewrite Hlookup. }
    rewrite Hrun. simpl. eauto.
Qed.

Lemma report_and_run_outcome (checkpoint_file metagraph_file : string)
    (image_size : Size) (files : list string) (c : Z) :
  snd (report_and_run W args checkpoint_file metagraph_file image_size files)
    = Ok c ->
  c = 0
  /\ exists t,
       fst (report_and_run W args checkpoint_file metagraph_file image_size files)
       = t ++ [Print [PStr "[i] All done."]].
Proof.
  rewrite report_and_run_unfold. cbv zeta. cbn [fst snd].
  destruct (snd (run_network W args checkpoint_file metagraph_file
                   image_size files)) as [[]|e]; [|discriminate].
  intros [= <-]. split; [reflexivity|].
  eexists. rewrite app_assoc. reflexivity.
Qed.

(** X7. Every run ends in one of three ways: return code 1 with a log that is
    a single error line; return code 0 with no error line and the closing
    line last; or an uncaught exception with no error line. No other code
    is returned, and an error is never reported once the report of the
    parameters has begun. *)
Theorem return_code_classification :
  match snd (main W args) with
  | Ok c =>
      (c = 1 /\ exists line,
          fst (main W args) = [line] /\ is_error_line line = true)
      \/ (c = 0
          /\ existsb is_error_line (fst (main W args)) = false
          /\ exists t, fst (main W args) = t ++ [Print [PStr "[i] All done."]])
  | Raise _ => existsb is_error_line (fst (main W args)) = false
  end.
Proof.
  assert (Hrep : forall pre cf meta size files,
    (pre = [] \/ pre = [MakeDirs (Args.output_dir args)]) ->
    match snd (report_and_run W args cf meta size files) with
    | Ok c =>
        (c = 1 /\ exists line,
            pre ++ fst (report_and_run W args cf meta size files) = [line]
            /\ is_error_line line = true)
        \/ (c = 0
            /\ existsb is_error_line
                 (pre ++ fst (report_and_run W args cf meta size files)) = false
            /\ exists t, pre ++ fst (report_and_run W args cf meta size files)
                         = t ++ [Print [PStr "[i] All done."]])
    | Raise _ =>
        existsb is_error_line
          (pre ++ fst (report_and_run W args cf meta size files)) = false
    end).
  { intros pre cf meta size files Hpre.
    assert (Hno : existsb is_error_line
              (pre ++ fst (report_and_run W args cf meta size files)) = false).
    { rewrite existsb_app, report_and_run_no_error.
      now destruct Hpre as [-> | ->]. }
    destruct (snd (report_and_run W args cf meta size files)) as [c|e] eqn:Hs;
      [|exact Hno].
    apply report_and_run_outcome in Hs as [-> [t Ht]].
    right. split; [reflexivity|]. split; [exact Hno|].
    exists (pre ++ t). now rewrite Ht, app_assoc. }
  unfold main.
  destruct (checkpoint_state W (Args.name args)) as [paths|].
  2:{ simpl. left. split; [reflexivity|]. eexists. split; reflexivity. }
  destruct (index paths (Args.checkpoint args)) as [cf|e].
  2:{ destruct (except [IndexError] e); reflexivity. }
  destruct (negb (path_exists W (cf ++ ".meta"))).
  { simpl. left. split; [reflexivity|]. eexists. split; reflexivity. }
  destruct (load_training_data W args) as [size|e].
  2:{ destruct (except _ e); simpl; [|reflexivity].
      left. split; [reflexivity|]. eexists. split; reflexivity. }
  destruct (Args.annotate args).
  - destruct (resolve_files W args) as [|f fs].
    { simpl. left. split; [reflexivity|]. eexists. split; reflexivity. }
    rewrite fst_bind, snd_bind.
    destruct (negb (path_exists W (Args.output_dir args))).
    + rewrite os_makedirs_cases.
      destruct (makedirs_error W (Args.output_dir args));
        cbn [fst snd]; [reflexivity|apply Hrep; auto].
    + cbn [ret fst snd]. apply Hrep; auto.
  - apply (Hrep [] _ _ _ _ (or_introl eq_refl)).
Qed.

End ExitFacts.

(** ** What the output directory holds at the end *)

Lemma written_some (saves : list (string * prediction)) (path : string) :
  In path (map fst saves) ->
  exists v, written saves path = Some v /\ In (path, v) saves.
Proof.
  induction saves as [|[p v0] rest IH]; intros Hin; [destruct Hin|].
  simpl. destruct (written rest path) as [v'|] eqn:E.
  - destruct (in_dec string_dec path (map fst rest)) as [Hr|Hr].
    + destruct (IH Hr) as (v & Hv & Hin').
      assert (v = v') by congruence. subst v. eauto.
    + apply written_in in E. contradiction.
  - destruct Hin as [Hp|Hr].
    + simpl in Hp. subst p. rewrite String.eqb_refl. eauto.
    + destruct (IH Hr) as (v & Hv & _). congruence.
Qed.

(** X15. After a complete run with both flags set, on which the network
    returns one row per image and neither [os.makedirs] nor [np.save]
    raises, every processed file finds a prediction under
    [<output-dir>/<base name>.npy], and it is one the run saved under that
    path. *)
Theorem every_file_has_a_prediction (W : World) (args : Args.t)
    (paths : list string) (checkpoint_file : string) (image_size : Size) :
  checkpoint_state W (Args.name args) = Some paths ->
  index paths (Args.checkpoint args) = Ok checkpoint_file ->
  path_exists W (checkpoint_file ++ ".meta") = true ->
  load_training_data W args = Ok image_size ->
  Args.annotate args = true -> Args.dump_prediction args = true ->
  0 < Args.batch_size args -> 0 < w image_size -> 0 < h image_size ->
  forallb (decodable (native_dims W)) (resolve_files W args) = true ->
  row_per_image W -> saves_succeed W -> makedirs_succeeds W args ->
  forall f, In f (resolve_files W args) ->
  exists v,
    written (saves_of (log (run W args))) (dump_path args (basename f)) = Some v
    /\ In (dump_path args (basename f), v) (saves_of (log (run W args))).
Proof.
  intros Hstate Hindex Hmeta Hload Ha Hd HB Hw Hh Hall Hnet Hsave Hmk f Hf.
  destruct (dump_past_preflight W args paths checkpoint_file image_size
              Hstate Hindex Hmeta Hload Ha Hd HB Hw Hh Hall Hnet Hsave Hmk)
    as [_ Hp].
  apply written_some. rewrite Hp.
  apply (in_map (fun f0 => dump_path args (basename f0))), Hf.
Qed.

(** ** What the network is fed *)

(** X16. Whatever the environment and the arguments, the network is only ever
    run on a batch of between one and [batch_size] images, stacked as a
    float32 array of shape (count, height, width, 3) for the height and
    width of the preset loaded from the training data. *)
Theorem network_fed_well_formed_batches (W : World) (args : Args.t)
    (x : batch_array) :
  In (SessRun x) (log (run W args)) ->
  exists image_size,
    load_training_data W args = Ok image_size
    /\ bshape x = [len (items x); h image_size; w image_size; 3]
    /\ belt x = Float32
    /\ 0 < len (items x) <= Args.batch_size args.
Proof.
  intros Hin.
  destruct (checkpoint_state W (Args.name args)) as [paths|] eqn:Hstate.
  2:{ rewrite log_run in Hin. unfold main in Hin. rewrite Hstate in Hin.
      simpl in Hin. destruct Hin as [Hin|[]]. discriminate. }
  destruct (index paths (Args.checkpoint args)) as [cf|e] eqn:Hindex.
  2:{ rewrite log_run in Hin. unfold main in Hin.
      rewrite Hstate, Hindex in Hin.
      destruct (except [IndexError] e); simpl in Hin; destruct Hin. }
  destruct (path_exists W (cf ++ ".meta")) eqn:Hmeta.
  2:{ rewrite log_run in Hin. unfold main in Hin.
      rewrite Hstate, Hindex, Hmeta in Hin.
      simpl in Hin. destruct Hin as [Hin|[]]. discriminate. }
  destruct (load_training_data W args) as [size|e] eqn:Hload.
  2:{ rewrite log_run in Hin. unfold main in Hin.
      rewrite Hstate, Hindex, Hmeta, Hload in Hin.
      destruct (except _ e); simpl in Hin; [|destruct Hin].
      destruct Hin as [Hin|[]]. discriminate. }
  exists size. split; [reflexivity|].
  exact (sess_run_batches_well_formed W args paths cf size
           Hstate Hindex Hmeta Hload x Hin).
Qed.

(** ** The further properties at the concrete environment *)

Lemma batches_partition_samples_witness :
  let g := sample_generator example_dims example_samples (MkSize 300 300) 2 in
  List.concat (map (fun b => map origin (items (fst b))) (yielded g))
  = example_samples.
Proof.
  apply (proj2 (batches_partition_samples example_dims example_samples
                  (MkSize 300 300) 2));
    [lia | simpl; lia | simpl; lia | reflexivity].
Defined.

Lemma batch_names_have_no_separator_witness :
  let b := batch_of (300, 300) ["in/a.jpg"; "in/b.jpg"] in
  Forall (fun n => has_slash n = false) (snd b)
  /\ (Forall (fun f => has_slash f = false) (chunk 2 example_samples 0) ->
      snd b = chunk 2 example_samples 0).
Proof.
  apply (batch_names_have_no_separator example_dims example_samples
           (MkSize 300 300) 2 0).
  reflexivity.
Defined.

Lemma decode_failure_keeps_earlier_batches_witness :
  let samples := ["in/a.jpg"; "in/b.jpg"; "c.jpg"] ++ "in/broken.jpg" :: [] in
  let g := sample_generator example_dims samples (MkSize 300 300) 2 in
  yielded g
  = map (fun k => batch_of (300, 300) (chunk 2 samples k)) (seq 0 1)
  /\ (exists e, raised g = Some e /\ exn_cls e = CvError)
  /\ Z.of_nat (List.length (List.concat (map snd (yielded g)))) = 3 - 3 mod 2.
Proof.
  apply (decode_failure_keeps_earlier_batches example_dims (MkSize 300 300) 2
           ["in/a.jpg"; "in/b.jpg"; "c.jpg"] [] "in/broken.jpg");
    [lia | simpl; lia | simpl; lia | reflexivity | reflexivity].
Defined.

Lemma zero_batch_size_aborts_after_build_witness :
  let args := example_args ["in/a.jpg"] (-1) true true 0 in
  traceback (run example_world args)
    = Some (Exn ZeroDivisionError "division by zero")
  /\ exit_code (run example_world args) = 1
  /\ In (BuildModel "test/final.ckpt.meta" "test/final.ckpt")
        (log (run example_world args))
  /\ runs_of (log (run example_world args)) = []
  /\ saves_of (log (run example_world args)) = [].
Proof.
  apply (zero_batch_size_aborts_after_build example_world
           (example_args ["in/a.jpg"] (-1) true true 0)
           ["test/e10.ckpt"; "test/e20.ckpt"; "test/final.ckpt"]
           "test/final.ckpt" (MkSize 300 300)
           eq_refl eq_refl eq_refl eq_refl);
    [right; discriminate | reflexivity | reflexivity].
Defined.

Lemma negative_batch_size_processes_nothing_witness :
  let args := example_args ["in/a.jpg"; "c.jpg"] (-1) true true (-4) in
  resolve_files example_world args = ["in/a.jpg"; "c.jpg"]
  /\ exit_code (run example_world args) = 0
  /\ traceback (run example_world args) = None
  /\ runs_of (log (run example_world args)) = []
  /\ saves_of (log (run example_world args)) = [].
Proof.
  split; [reflexivity|].
  apply (negative_batch_size_processes_nothing example_world
           (example_args ["in/a.jpg"; "c.jpg"] (-1) true true (-4))
           ["test/e10.ckpt"; "test/e20.ckpt"; "test/final.ckpt"]
           "test/final.ckpt" (MkSize 300 300)
           eq_refl eq_refl eq_refl eq_refl);
    [right; discriminate | reflexivity | simpl; lia].
Defined.

Lemma without_annotate_nothing_processed_witness :
  let args := example_args ["in/a.jpg"; "c.jpg"] (-1) false true 32 in
  exit_code (run example_world args) = 0
  /\ traceback (run example_world args) = None
  /\ In (Print [PStr "[i] Number of files:   "; PInt 0])
        (log (run example_world args))
  /\ In (BuildModel "test/final.ckpt.meta" "test/final.ckpt")
        (log (run example_world args))
  /\ runs_of (log (run example_world args)) = []
  /\ saves_of (log (run example_world args)) = []
  /\ dirs_of (log (run example_world args)) = [].
Proof.
  apply (without_annotate_nothing_processed example_world
           (example_args ["in/a.jpg"; "c.jpg"] (-1) false true 32)
           ["test/e10.ckpt"; "test/e20.ckpt"; "test/final.ckpt"]
           "test/final.ckpt" (MkSize 300 300)
           eq_refl eq_refl eq_refl eq_refl);
    [reflexivity | discriminate].
Defined.

Lemma output_dir_created_iff_witness :
  let args := Args.Make ["c.jpg"] "test" (-1)
                "pascal-voc-2007/training-data.pkl" "fresh-output"
                true false 32 in
  dirs_of (log (run example_world args)) = ["fresh-output"].
Proof.
  exact (output_dir_created_iff example_world
           (Args.Make ["c.jpg"] "test" (-1)
              "pascal-voc-2007/training-data.pkl" "fresh-output"
              true false 32)
           ["test/e10.ckpt"; "test/e20.ckpt"; "test/final.ckpt"]
           "test/final.ckpt" (MkSize 300 300)
           eq_refl eq_refl eq_refl eq_refl).
Defined.

Lemma complete_run_succeeds_witness :
  let args := example_args ["in/a.jpg"; "in/b.jpg"; "c.jpg"] (-1) true false 2 in
  let g := sample_generator example_dims example_samples (MkSize 300 300) 2 in
  exit_code (run example_world args) = 0
  /\ traceback (run example_world args) = None
  /\ runs_of (log (run example_world args)) = map fst (yielded g)
  /\ len (runs_of (log (run example_world args))) = (3 + 2 - 1) / 2
  /\ exists t, log (run example_world args)
               = t ++ [Print [PStr "[i] All done."]].
Proof.
  apply (complete_run_succeeds example_world
           (example_args ["in/a.jpg"; "in/b.jpg"; "c.jpg"] (-1) true false 2)
           ["test/e10.ckpt"; "test/e20.ckpt"; "test/final.ckpt"]
           "test/final.ckpt" (MkSize 300 300)
           eq_refl eq_refl eq_refl eq_refl);
    [right; discriminate | simpl; lia | simpl; lia | simpl; lia
     | reflexivity | exact example_row_per_image
     | exact example_saves_succeed | reflexivity].
Defined.

Lemma saves_follow_yields_witness :
  let files := ["in/a.jpg"; "in/b.jpg"; "in/broken.jpg"; "c.jpg"] in
  let args := example_args files (-1) true true 2 in
  let g := sample_generator example_dims files (MkSize 300 300) 2 in
  saves_of (log (run example_world args))
    = expected_saves example_world args (yielded g)
  /\ runs_of (log (run example_world args)) = map fst (yielded g).
Proof.
  apply (saves_follow_yields example_world
           (example_args ["in/a.jpg"; "in/b.jpg"; "in/broken.jpg"; "c.jpg"]
              (-1) true true 2)
           ["test/e10.ckpt"; "test/e20.ckpt"; "test/final.ckpt"]
           "test/final.ckpt" (MkSize 300 300)
           eq_refl eq_refl eq_refl eq_refl);
    [reflexivity | reflexivity | discriminate | exact example_row_per_image
     | exact example_saves_succeed | reflexivity].
Defined.

Lemma checkpoint_selected_by_index_witness :
  let args := example_args [] (-2) false false 32 in
  In (Print [PStr "[i] Network checkpoint:"; PStr "test/e20.ckpt"])
     (log (run example_world args))
  /\ In (BuildModel "test/e20.ckpt.meta" "test/e20.ckpt")
        (log (run example_world args)).
Proof.
  apply (checkpoint_selected_by_index example_world
           (example_args [] (-2) false false 32)
           ["test/e10.ckpt"] ["test/final.ckpt"] "test/e20.ckpt"
           (MkSize 300 300));
    [reflexivity | right; reflexivity | reflexivity | reflexivity
     | left; reflexivity | reflexivity].
Defined.

Lemma early_exits_reported_witness :
  run example_world
    (Args.Make [] "unknown" (-1) "pascal-voc-2007/training-data.pkl"
       "test-output" false false 32)
  = MkProcess [Print [PStr "[!] No network state found in unknown"]] 1 None
  /\ run stale_world (example_args [] (-1) false false 32)
     = MkProcess [Print [PStr "[!] Cannot find metagraph test/gone.ckpt.meta"]]
         1 None.
Proof.
  split.
  - apply (proj1 (early_exits_reported example_world
                    (Args.Make [] "unknown" (-1)
                       "pascal-voc-2007/training-data.pkl"
                       "test-output" false false 32))).
    reflexivity.
  - apply (proj2 (early_exits_reported stale_world
                    (example_args [] (-1) false false 32))
             ["test/e10.ckpt"; "test/gone.ckpt"] "test/gone.ckpt");
      reflexivity.
Defined.

Lemma malformed_training_data_escapes_witness :
  let args := example_args [] (-1) false false 32 in
  let as_int := unpickled_world (PyOther "'int' object is not subscriptable") in
  let bare :=
    unpickled_world
      (PyDict [("preset",
                PyPlain "'dict' object has no attribute 'image_size'")]) in
  (log (run as_int args) = [] /\ exit_code (run as_int args) = 1
   /\ exists e, traceback (run as_int args) = Some e /\ exn_cls e = TypeError)
  /\ (log (run bare args) = [] /\ exit_code (run bare args) = 1
      /\ exists e, traceback (run bare args) = Some e
                   /\ exn_cls e = AttributeError).
Proof.
  split.
  - apply (proj1 (malformed_training_data_escapes
                    (unpickled_world
                       (PyOther "'int' object is not subscriptable"))
                    (example_args [] (-1) false false 32)
                    ["test/e10.ckpt"; "test/e20.ckpt"; "test/final.ckpt"]
                    "test/final.ckpt" 3%nat
                    eq_refl eq_refl eq_refl eq_refl)
             "'int' object is not subscriptable").
    reflexivity.
  - apply (proj2 (malformed_training_data_escapes
                    (unpickled_world
                       (PyDict [("preset",
                                 PyPlain "'dict' object has no attribute 'image_size'")]))
                    (example_args [] (-1) false false 32)
                    ["test/e10.ckpt"; "test/e20.ckpt"; "test/final.ckpt"]
                    "test/final.ckpt" 3%nat
                    eq_refl eq_refl eq_refl eq_refl)
             [("preset", PyPlain "'dict' object has no attribute 'image_size'")]
             "'dict' object has no attribute 'image_size'");
      reflexivity.
Defined.

Lemma every_file_has_a_prediction_witness :
  let args := example_args ["in/a.jpg"; "in/b.jpg"; "c.jpg"] (-1) true true 2 in
  exists v,
    written (saves_of (log (run example_world args))) "test-output/b.jpg.npy"
      = Some v
    /\ In ("test-output/b.jpg.npy", v) (saves_of (log (run example_world args))).
Proof.
  apply (every_file_has_a_prediction example_world
           (example_args ["in/a.jpg"; "in/b.jpg"; "c.jpg"] (-1) true true 2)
           ["test/e10.ckpt"; "test/e20.ckpt"; "test/final.ckpt"]
           "test/final.ckpt" (MkSize 300 300)
           eq_refl eq_refl eq_refl eq_refl eq_refl eq_refl
           eq_refl eq_refl eq_refl eq_refl
           example_row_per_image example_saves_succeed eq_refl "in/b.jpg").
  simpl. auto.
Defined.

Lemma decode_failure_leaves_earlier_predictions_witness :
  let files := ["in/a.jpg"; "in/b.jpg"; "c.jpg"; "in/broken.jpg"] in
  let args := example_args files (-1) true true 2 in
  map fst (saves_of (log (run example_world args)))
  = map (fun x => dump_path args (basename x)) (firstn 2 files)
  /\ (exists e, traceback (run example_world args) = Some e
                /\ exn_cls e = CvError)
  /\ exit_code (run example_world args) = 1.
Proof.
  apply (decode_failure_leaves_earlier_predictions example_world
           (example_args ["in/a.jpg"; "in/b.jpg"; "c.jpg"; "in/broken.jpg"]
              (-1) true true 2)
           ["test/e10.ckpt"; "test/e20.ckpt"; "test/final.ckpt"]
           "test/final.ckpt" (MkSize 300 300)
           eq_refl eq_refl eq_refl eq_refl
           ["in/a.jpg"; "in/b.jpg"; "c.jpg"] [] "in/broken.jpg"
           eq_refl eq_refl eq_refl eq_refl eq_refl eq_refl eq_refl eq_refl
           example_row_per_image example_saves_succeed eq_refl).
Defined.

Lemma network_fed_well_formed_batches_witness :
  let args := example_args ["in/a.jpg"; "in/b.jpg"; "c.jpg"] (-1) true false 2 in
  let x := np_array [decoded (300, 300) "c.jpg"] in
  exists image_size,
    load_training_data example_world args = Ok image_size
    /\ bshape x = [len (items x); h image_size; w image_size; 3]
    /\ belt x = Float32
    /\ 0 < len (items x) <= Args.batch_size args.
Proof.
  apply (network_fed_well_formed_batches example_world
           (example_args ["in/a.jpg"; "in/b.jpg"; "c.jpg"] (-1) true false 2)).
  simpl. auto 20.
Defined.

Lemma makedirs_failure_aborts_run_witness :
  run locked_world fresh_args = MkProcess [MakeDirs "fresh-output"] 1 (Some denied)
  /\ existsb is_model_work (log (run locked_world fresh_args)) = false.
Proof.
  apply (makedirs_failure_aborts_run locked_world fresh_args
           ["test/e10.ckpt"; "test/e20.ckpt"; "test/final.ckpt"]
           "test/final.ckpt" (MkSize 300 300)
           eq_refl eq_refl eq_refl eq_refl denied);
    [reflexivity | discriminate | reflexivity | reflexivity].
Defined.

Lemma save_failure_aborts_run_witness :
  let args := example_args ["in/a.jpg"; "in/b.jpg"; "c.jpg"] (-1) true true 2 in
  let e := Exn NotADirectoryError
             "[Errno 20] Not a directory: 'test-output/a.jpg.npy'" in
  traceback (run readonly_world args) = Some e
  /\ exit_code (run readonly_world args) = 1
  /\ map fst (saves_of (log (run readonly_world args)))
     = ["test-output/a.jpg.npy"]
  /\ runs_of (log (run readonly_world args))
     = [fst (batch_of (300, 300) ["in/a.jpg"; "in/b.jpg"])]
  /\ In (BuildModel "test/final.ckpt.meta" "test/final.ckpt")
        (log (run readonly_world args)).
Proof.
  apply (save_failure_aborts_run readonly_world
           (example_args ["in/a.jpg"; "in/b.jpg"; "c.jpg"] (-1) true true 2)
           ["test/e10.ckpt"; "test/e20.ckpt"; "test/final.ckpt"]
           "test/final.ckpt" (MkSize 300 300)
           eq_refl eq_refl eq_refl eq_refl
           "in/a.jpg" ["in/b.jpg"; "c.jpg"]);
    try reflexivity.
  intros x. simpl. unfold example_net. apply length_map.
Defined.
